(** * LLM judge for German e-commerce conversations: a shallow embedding

    The development follows the Python sources:
    - [judge/models.py]: the records of the data model;
    - [judge/engine.py]: [_parse_response], [_create_error_result],
      [evaluate], [evaluate_batch];
    - [judge/rubrics/rubric_loader.py]: [DEFAULT_RUBRIC], [RubricLoader.load];
    - [judge/languagetool.py]: [check_text], [enhance_evaluation];
    - [backend/app/services/meta_evaluation_service.py]:
      [calculate_metrics], [_check_calibration_needed],
      [_generate_recommendations].

    Conventions.  Python floats are idealised as exact rationals ([Q]), so
    rounding, NaN and infinities are outside the model.  Python [str] is a
    Rocq byte string.  What the model answers is untyped JSON, so every field
    read from it is a dynamic Python value ([pyval]) and every operation
    that Python can refuse returns in the error monad [exc].  Library and
    network calls ([json.loads], the HTTP round trips, string formatting of
    floats, the scipy statistics) are parameters, collected in classes. *)

From Stdlib Require Import ZArith QArith String Ascii Lia.
From stdpp Require Import base gmap strings list pretty.

Set Default Proof Using "Type".

(* ================================================================= *)
(** ** Python values and exceptions *)

#[warnings="-register-all"]
Inductive pyval : Type :=
  | PNone
  | PBool (b : bool)
  | PInt (n : Z)
  | PFloat (q : Q)
  | PStr (s : string)
  | PList (l : list pyval)
  | PDict (d : list (string * pyval)).

(** The exception classes the modelled code can meet, with [str(e)]. *)
Inductive exn : Type :=
  | JSONDecodeError (msg : string)
  | AttributeError (msg : string)
  | TypeError (msg : string)
  | IndexError (msg : string)
  | ValueError (msg : string)
  | HTTPError (msg : string).

Definition str_exn (e : exn) : string :=
  match e with
  | JSONDecodeError m | AttributeError m | TypeError m
  | IndexError m | ValueError m | HTTPError m => m
  end.

Inductive exc (A : Type) : Type :=
  | Ok (a : A)
  | Raise (e : exn).
Arguments Ok {A} a.
Arguments Raise {A} e.

#[global] Instance exc_ret : MRet exc := fun A a => Ok a.
#[global] Instance exc_bind : MBind exc := fun A B f m =>
  match m with
  | Ok a => f a
  | Raise e => Raise e
  end.

(** [type(v).__name__] *)
Definition type_name (v : pyval) : string :=
  match v with
  | PNone => "NoneType"
  | PBool _ => "bool"
  | PInt _ => "int"
  | PFloat _ => "float"
  | PStr _ => "str"
  | PList _ => "list"
  | PDict _ => "dict"
  end.

Definition no_attribute (v : pyval) (attr : string) : exn :=
  AttributeError ("'" +:+ type_name v +:+ "' object has no attribute '" +:+ attr +:+ "'").

(** Insertion-ordered dictionaries with string keys. *)
Fixpoint dict_get {A} (k : string) (d : list (string * A)) : option A :=
  match d with
  | [] => None
  | (k', v) :: d' => if String.eqb k k' then Some v else dict_get k d'
  end.

(** [d[k] = v]: overwrite in place, or append a new key. *)
Fixpoint dict_set {A} (k : string) (v : A) (d : list (string * A)) : list (string * A) :=
  match d with
  | [] => [(k, v)]
  | (k', v') :: d' =>
      if String.eqb k k' then (k, v) :: d' else (k', v') :: dict_set k v d'
  end.

Definition dict_mem {A} (k : string) (d : list (string * A)) : bool :=
  match dict_get k d with Some _ => true | None => false end.

(** A Python dict never holds a key twice. *)
Definition wf_dict {A} (d : list (string * A)) : Prop := NoDup (d.*1).

(** [o.get(key, default)] *)
Definition py_get (o : pyval) (key : string) (default : pyval) : exc pyval :=
  match o with
  | PDict d => Ok (from_option id default (dict_get key d))
  | _ => Raise (no_attribute o "get")
  end.

(** [o.items()] *)
Definition py_items (o : pyval) : exc (list (string * pyval)) :=
  match o with
  | PDict d => Ok d
  | _ => Raise (no_attribute o "items")
  end.

(** The number a value stands for in arithmetic ([bool] is an [int]). *)
Definition py_num (v : pyval) : option Q :=
  match v with
  | PInt n => Some (inject_Z n)
  | PFloat q => Some q
  | PBool b => Some (if b then 1%Q else 0%Q)
  | _ => None
  end.

(** [v / 5.0] *)
Definition py_truediv_float (v : pyval) (d : Q) : exc Q :=
  match py_num v with
  | Some q => Ok (q / d)%Q
  | None =>
      Raise (TypeError ("unsupported operand type(s) for /: '" +:+ type_name v
                        +:+ "' and 'float'"))
  end.

Definition Qlt_bool (x y : Q) : bool := negb (Qle_bool y x).

(* ================================================================= *)
(** ** The string methods the code uses *)

(** [sub in s] *)
Fixpoint str_contains (sub s : string) : bool :=
  String.prefix sub s ||
  match s with
  | EmptyString => false
  | String _ s' => str_contains sub s'
  end.

(** [s.split(sep)] for a non-empty separator: scan left to right; at a match
    close the current piece and skip the rest of the separator. *)
Fixpoint split_go (sep s : string) (skip : nat) (cur : string) : list string :=
  match s with
  | EmptyString => [cur]
  | String c s' =>
      match skip with
      | S k => split_go sep s' k cur
      | O =>
          if String.prefix sep s
          then cur :: split_go sep s' (String.length sep - 1) EmptyString
          else split_go sep s' 0 (cur +:+ String c EmptyString)
      end
  end.

Definition str_split (sep s : string) : list string := split_go sep s 0 EmptyString.

(** [l[i]] *)
Definition py_index {A} (l : list A) (i : nat) : exc A :=
  match l !! i with
  | Some x => Ok x
  | None => Raise (IndexError "list index out of range")
  end.

(** [c.isspace()] on the ASCII range. *)
Definition is_space (c : ascii) : bool :=
  let n := nat_of_ascii c in
  ((9 <=? n) && (n <=? 13)) || ((28 <=? n) && (n <=? 31)) || (n =? 32).

Fixpoint str_lstrip (s : string) : string :=
  match s with
  | EmptyString => EmptyString
  | String c s' => if is_space c then str_lstrip s' else s
  end.

Fixpoint str_rstrip (s : string) : string :=
  match s with
  | EmptyString => EmptyString
  | String c s' =>
      match str_rstrip s' with
      | EmptyString => if is_space c then EmptyString else String c EmptyString
      | r => String c r
      end
  end.

(** [s.strip()] *)
Definition str_strip (s : string) : string := str_rstrip (str_lstrip s).

(** Every character of [s] is whitespace (so also: [s] is empty). *)
Definition whitespace_only (s : string) : bool :=
  forallb is_space (list_ascii_of_string s).

(** [s.split()]: the words between runs of whitespace. *)
Fixpoint split_ws_go (s cur : string) : list string :=
  match s with
  | EmptyString => match cur with EmptyString => [] | _ => [cur] end
  | String c s' =>
      if is_space c
      then match cur with
           | EmptyString => split_ws_go s' EmptyString
           | _ => cur :: split_ws_go s' EmptyString
           end
      else split_ws_go s' (cur +:+ String c EmptyString)
  end.

Definition str_split_ws (s : string) : list string := split_ws_go s EmptyString.

(** [sep.join(l)] *)
Fixpoint str_join (sep : string) (l : list string) : string :=
  match l with
  | [] => EmptyString
  | [x] => x
  | x :: l' => x +:+ sep +:+ str_join sep l'
  end.

(* ================================================================= *)
(** ** judge/models.py *)

Inductive JudgeModelProvider : Type :=
  | OPENAI_COMPATIBLE | VLLM | OLLAMA | ANTHROPIC.

Record JudgeConfig : Type := {
  provider : JudgeModelProvider;
  cfg_model_name : string;
  base_url : string;
  api_key : string;
  temperature : Q;
  max_tokens : Z;
  timeout : Q
}.

Record Conversation : Type := {
  conv_id : string;
  category : string;
  timestamp : Z;
  messages : list pyval;
  metadata : pyval
}.

(** The dataclasses are not checked at run time: the fields filled from the
    model's answer hold whatever JSON value the answer had. *)
Record DimensionScore : Type := {
  score : pyval;
  weight : Q;
  reasoning : pyval;
  evidence : pyval
}.

Record ChainOfThought : Type := {
  context_analysis : pyval;
  response_analysis : pyval;
  legal_check : pyval;
  language_assessment : pyval
}.

Record EvaluationFlags : Type := {
  critical_error : pyval;
  compliance_issue : pyval;
  escalation_needed : pyval
}.

Record EvaluationResult : Type := {
  conversation_id : string;
  overall_score : Q;
  dimension_scores : list (string * DimensionScore);
  chain_of_thought : ChainOfThought;
  summary : pyval;
  improvement_suggestions : pyval;
  flags : EvaluationFlags;
  model_name : string;
  rubric_version : string;
  processing_time_ms : Z;
  raw_response : option string
}.

Record RubricDimension : Type := {
  dim_name : string;
  dim_weight : Q;
  dim_description : string;
  scoring_guidelines : list (Z * string)
}.

Record Rubric : Type := {
  name : string;
  version : string;
  description : string;
  dimensions : list (string * RubricDimension);
  few_shot_examples : list pyval;
  calibration_notes : string
}.

(* ================================================================= *)
(** ** judge/rubrics/rubric_loader.py: the built-in rubric *)

Definition DEFAULT_RUBRIC : Rubric := {|
  name := "default_rubric";
  version := "1.0.0";
  description := "Standard evaluation rubric for German e-commerce customer support";
  dimensions := [
    ("accuracy", {|
       dim_name := "Accuracy";
       dim_weight := 0.25;
       dim_description := "Factual correctness of product/policy information";
       scoring_guidelines := [
         (1%Z, "Multiple factual errors, incorrect product/policy information");
         (2%Z, "Some factual errors or incomplete information");
         (3%Z, "Mostly accurate with minor issues");
         (4%Z, "Accurate information with good detail");
         (5%Z, "Completely accurate, comprehensive, and precise")] |});
    ("tone", {|
       dim_name := "Tone";
       dim_weight := 0.20;
       dim_description := "Professional, helpful, empathetic communication style";
       scoring_guidelines := [
         (1%Z, "Rude, dismissive, or inappropriate tone");
         (2%Z, "Cold or impersonal, lacks empathy");
         (3%Z, "Neutral and professional but not warm");
         (4%Z, "Friendly, helpful, and empathetic");
         (5%Z, "Excellent rapport, perfectly balanced professionalism and warmth")] |});
    ("compliance", {|
       dim_name := "Compliance";
       dim_weight := 0.20;
       dim_description := "Adherence to legal requirements (Widerrufsrecht, DSGVO, etc.)";
       scoring_guidelines := [
         (1%Z, "Violates legal requirements or provides illegal advice");
         (2%Z, "Missing required legal information");
         (3%Z, "Basic compliance but could be more thorough");
         (4%Z, "Good compliance with relevant regulations");
         (5%Z, "Excellent compliance, proactively addresses legal aspects")] |});
    ("completeness", {|
       dim_name := "Completeness";
       dim_weight := 0.15;
       dim_description := "Full resolution of customer inquiry";
       scoring_guidelines := [
         (1%Z, "Does not address the customer's question");
         (2%Z, "Partially addresses the inquiry, missing key points");
         (3%Z, "Addresses main question but misses some details");
         (4%Z, "Thoroughly addresses the inquiry");
         (5%Z, "Comprehensive response anticipating follow-up questions")] |});
    ("language_quality", {|
       dim_name := "Language Quality";
       dim_weight := 0.10;
       dim_description := "German grammar, spelling, and natural phrasing";
       scoring_guidelines := [
         (1%Z, "Many grammar/spelling errors, unnatural phrasing");
         (2%Z, "Noticeable errors affecting readability");
         (3%Z, "Minor errors, generally readable");
         (4%Z, "Good German with rare minor issues");
         (5%Z, "Flawless German, natural and professional")] |});
    ("efficiency", {|
       dim_name := "Efficiency";
       dim_weight := 0.10;
       dim_description := "Concise responses without unnecessary verbosity";
       scoring_guidelines := [
         (1%Z, "Extremely verbose or too brief to be useful");
         (2%Z, "Unnecessarily long or missing important details");
         (3%Z, "Adequate length but could be more concise");
         (4%Z, "Well-balanced, appropriately detailed");
         (5%Z, "Perfectly concise, every word serves a purpose")] |})
  ];
  few_shot_examples := [
    PDict [
      ("conversation", PList [
         PDict [("role", PStr "customer");
                ("content", PStr "Ich möchte meine Bestellung stornieren.")];
         PDict [("role", PStr "chatbot");
                ("content", PStr "Gerne helfe ich Ihnen bei der Stornierung. Könnten Sie mir bitte Ihre Bestellnummer mitteilen? Sie finden diese in Ihrer Bestellbestätigung. Bitte beachten Sie, dass eine kostenlose Stornierung innerhalb von 14 Tagen nach Bestellung gemäß Ihrem Widerrufsrecht möglich ist.")]]);
      ("evaluation", PDict [
         ("overall_score", PFloat 0.85);
         ("summary", PStr "Helpful response that correctly addresses the cancellation request and mentions legal rights.")])]
  ];
  calibration_notes := "
## Calibration Guidelines
- Score 3 should be the baseline for acceptable performance
- Reserve 5 for truly exceptional responses
- Consider context: complex inquiries may have lower completeness expectations
- German language quality is important but shouldn't dominate the score
- Compliance issues should be flagged even for minor violations
"
|}.

(* ================================================================= *)
(** ** judge/engine.py *)

(** What the engine obtains from outside: the JSON decoder, the round trip to
    the model ([_call_llm], which raises on transport errors), the wall clock,
    and the two prompt builders, whose string formatting is taken to succeed
    (every message of a conversation is an object with a string role, as the
    API schema has it). *)
Class EngineEnv : Type := {
  json_loads : string -> exc pyval;
  _call_llm : JudgeConfig -> string -> string -> exc string;
  _build_system_prompt : Rubric -> string;
  _build_user_prompt : Rubric -> Conversation -> bool -> string;
  elapsed_ms : Conversation -> Z
}.

(** [_create_error_result] *)
Definition _create_error_result (conversation_id : string) (error : string)
  : EvaluationResult := {|
  conversation_id := conversation_id;
  overall_score := 0;
  dimension_scores := [];
  chain_of_thought := {|
    context_analysis := PStr ("Error: " +:+ error);
    response_analysis := PStr "";
    legal_check := PStr "";
    language_assessment := PStr "" |};
  summary := PStr ("Evaluation failed: " +:+ error);
  improvement_suggestions := PList [];
  flags := {| critical_error := PBool true;
              compliance_issue := PBool false;
              escalation_needed := PBool false |};
  model_name := "";
  rubric_version := "";
  processing_time_ms := 0;
  raw_response := None
|}.

(** Lines 289-293: the text between Markdown fences, if there are any. *)
Definition extract_json (response : string) : exc string :=
  if str_contains "```json" response then
    p ← py_index (str_split "```json" response) 1;
    py_index (str_split "```" p) 0
  else if str_contains "```" response then
    p ← py_index (str_split "```" response) 1;
    py_index (str_split "```" p) 0
  else Ok response.

(** Line 304: the weight of a dimension comes from the rubric. *)
Definition rubric_weight (rubric : Rubric) (dim_name : string) : Q :=
  if dict_mem dim_name (dimensions rubric)
  then dim_weight (from_option id
                     {| dim_name := dim_name; dim_weight := 0.1;
                        dim_description := ""; scoring_guidelines := [] |}
                     (dict_get dim_name (dimensions rubric)))
  else 0.1.

(** Lines 302-310: the loop over [dimension_scores]. *)
Fixpoint parse_dimension_scores (rubric : Rubric) (items : list (string * pyval))
    (acc : list (string * DimensionScore)) : exc (list (string * DimensionScore)) :=
  match items with
  | [] => Ok acc
  | (dim_name, dim_data) :: rest =>
      let weight := rubric_weight rubric dim_name in
      score ← py_get dim_data "score" (PInt 3);
      reasoning ← py_get dim_data "reasoning" (PStr "");
      evidence ← py_get dim_data "evidence" (PList []);
      parse_dimension_scores rubric rest
        (dict_set dim_name
           {| score := score; weight := weight;
              reasoning := reasoning; evidence := evidence |} acc)
  end.

(** [sum(ds.weight for ds in dimension_scores.values())] *)
Definition total_weight (ds : list (string * DimensionScore)) : Q :=
  fold_left (fun acc kv => (acc + weight kv.2)%Q) ds 0%Q.

(** [sum((ds.score / 5.0) * ds.weight for ds in ...)], left to right from 0;
    the first score that is not a number raises. *)
Fixpoint sum_weighted (acc : Q) (ds : list (string * DimensionScore)) : exc Q :=
  match ds with
  | [] => Ok acc
  | (_, d) :: rest =>
      x ← py_truediv_float (score d) 5;
      sum_weighted (acc + x * weight d)%Q rest
  end.

(** Lines 313-320.  The conditional expression tests the total weight before
    it evaluates the sum. *)
Definition calculate_overall (ds : list (string * DimensionScore)) : exc Q :=
  match ds with
  | [] => Ok 0.5%Q
  | _ =>
      let tw := total_weight ds in
      if Qlt_bool 0 tw
      then s ← sum_weighted 0 ds; Ok (s / tw)%Q
      else Ok 0.5%Q
  end.

Section Engine.
Context `{env : EngineEnv}.
Variable config : JudgeConfig.
Variable rubric : Rubric.

(** Lines 301-351: what [_parse_response] does with decoded JSON. *)
Definition parse_data (data : pyval) (response conversation_id : string)
  : exc EvaluationResult :=
  ds_data ← py_get data "dimension_scores" (PDict []);
  items ← py_items ds_data;
  dimension_scores ← parse_dimension_scores rubric items [];
  overall_score ← calculate_overall dimension_scores;
  cot_data ← py_get data "chain_of_thought" (PDict []);
  ca ← py_get cot_data "context_analysis" (PStr "");
  ra ← py_get cot_data "response_analysis" (PStr "");
  lc ← py_get cot_data "legal_check" (PStr "");
  la ← py_get cot_data "language_assessment" (PStr "");
  flags_data ← py_get data "flags" (PDict []);
  ce ← py_get flags_data "critical_error" (PBool false);
  ci ← py_get flags_data "compliance_issue" (PBool false);
  en ← py_get flags_data "escalation_needed" (PBool false);
  summary ← py_get data "summary" (PStr "");
  improvement_suggestions ← py_get data "improvement_suggestions" (PList []);
  Ok {| conversation_id := conversation_id;
        overall_score := overall_score;
        dimension_scores := dimension_scores;
        chain_of_thought := {| context_analysis := ca; response_analysis := ra;
                               legal_check := lc; language_assessment := la |};
        summary := summary;
        improvement_suggestions := improvement_suggestions;
        flags := {| critical_error := ce; compliance_issue := ci;
                    escalation_needed := en |};
        model_name := "";
        rubric_version := "";
        processing_time_ms := 0;
        raw_response := Some response |}.

(** [_parse_response]: only [json.JSONDecodeError] is caught. *)
Definition _parse_response (response conversation_id : string)
  : exc EvaluationResult :=
  json_str ← extract_json response;
  match json_loads (str_strip json_str) with
  | Raise (JSONDecodeError e) =>
      Ok (_create_error_result conversation_id ("JSON parse error: " +:+ e))
  | Raise e => Raise e
  | Ok data => parse_data data response conversation_id
  end.

(** The three fields [evaluate] fills in after the [try] block. *)
Definition stamp (conversation : Conversation) (result : EvaluationResult)
  : EvaluationResult := {|
  conversation_id := conversation_id result;
  overall_score := overall_score result;
  dimension_scores := dimension_scores result;
  chain_of_thought := chain_of_thought result;
  summary := summary result;
  improvement_suggestions := improvement_suggestions result;
  flags := flags result;
  model_name := cfg_model_name config;
  rubric_version := version rubric;
  processing_time_ms := elapsed_ms conversation;
  raw_response := raw_response result
|}.

(** [evaluate]: [except Exception] turns every failure of the call or of
    the parser into an error result. *)
Definition evaluate (conversation : Conversation) (include_few_shot : bool)
  : EvaluationResult :=
  let system_prompt := _build_system_prompt rubric in
  let user_prompt := _build_user_prompt rubric conversation include_few_shot in
  let attempt :=
    response ← _call_llm config system_prompt user_prompt;
    _parse_response response (conv_id conversation) in
  stamp conversation
    match attempt with
    | Ok result => result
    | Raise e => _create_error_result (conv_id conversation) (str_exn e)
    end.
End Engine.


(** One parsed dimension in the words of the specification: the weight is
    that of the rubric's dimension of the same key, 0.1 when the rubric has
    none; a missing score, reasoning or evidence is 3, the empty string, the
    empty list. *)
Definition spec_dimension_score (rubric : Rubric) (dim_name : string)
    (fields : list (string * pyval)) : DimensionScore := {|
  score := from_option id (PInt 3) (dict_get "score" fields);
  weight := match dict_get dim_name (dimensions rubric) with
            | Some rd => dim_weight rd
            | None => 0.1
            end;
  reasoning := from_option id (PStr "") (dict_get "reasoning" fields);
  evidence := from_option id (PList []) (dict_get "evidence" fields)
|}.

(** The entries of a JSON object, nothing for any other value. *)
Definition fields_of (v : pyval) : list (string * pyval) :=
  match v with
  | PDict d => d
  | _ => []
  end.




(* ================================================================= *)
(** ** judge/engine.py: [evaluate_batch] *)

(** The coroutines that [asyncio.gather] runs are modelled as a transition
    system.  Task [idx] waits for a permit of the semaphore, holds it while
    [evaluate] is in flight, and on completion bumps the counter, calls the
    progress callback and gives the permit back; nothing is awaited between
    these last steps, so they form one transition.  Which enabled task moves
    next is up to the event loop and the network: every interleaving is a
    run. *)
Inductive task_state : Type :=
  | Waiting
  | Running
  | Done (result : EvaluationResult).

Record batch_state : Type := {
  tasks : list task_state;
  permits : Z;
  completed : nat;
  progress_calls : list (nat * nat)
}.

Inductive batch_event : Type :=
  | Acquire (idx : nat)
  | Finish (idx : nat).

(** Steps a task still has to take, and the tasks in flight or finished;
    they measure how far a run of the batch has come. *)
Definition steps_left (t : task_state) : nat :=
  match t with
  | Waiting => 2
  | Running => 1
  | Done _ => 0
  end.

Definition in_flight (t : task_state) : nat :=
  match t with
  | Running => 1
  | _ => 0
  end.

Definition finished (t : task_state) : nat :=
  match t with
  | Done _ => 1
  | _ => 0
  end.

Definition batch_measure (s : batch_state) : nat := sum_list (steps_left <$> tasks s).
Definition batch_in_flight (s : batch_state) : nat := sum_list (in_flight <$> tasks s).
Definition batch_finished (s : batch_state) : nat := sum_list (finished <$> tasks s).

Section Batch.
Context `{env : EngineEnv}.
Variable config : JudgeConfig.
Variable rubric : Rubric.
Variable conversations : list Conversation.
Variable include_few_shot : bool.
Variable has_progress_callback : bool.
Variable concurrency : Z.

(** [asyncio.Semaphore(concurrency)] refuses a negative value; then one
    task per conversation is created. *)
Definition batch_init : exc batch_state :=
  if (concurrency <? 0)%Z
  then Raise (ValueError "Semaphore initial value must be >= 0")
  else Ok {| tasks := replicate (length conversations) Waiting;
             permits := concurrency;
             completed := 0;
             progress_calls := [] |}.

(** The call made by task [idx] (line 206). *)
Definition evaluate_with_semaphore (conv : Conversation) (idx : nat)
  : EvaluationResult :=
  evaluate config rubric conv (include_few_shot && bool_decide (idx = 0)).

(** One transition: task [idx] takes a permit, or finishes.  [None]: the
    event cannot happen in this state. *)
Definition batch_do (ev : batch_event) (s : batch_state) : option batch_state :=
  match ev with
  | Acquire idx =>
      match tasks s !! idx with
      | Some Waiting =>
          if (0 <? permits s)%Z
          then Some {| tasks := <[idx := Running]> (tasks s);
                       permits := permits s - 1;
                       completed := completed s;
                       progress_calls := progress_calls s |}
          else None
      | _ => None
      end
  | Finish idx =>
      match tasks s !! idx, conversations !! idx with
      | Some Running, Some conv =>
          Some {| tasks := <[idx := Done (evaluate_with_semaphore conv idx)]> (tasks s);
                  permits := permits s + 1;
                  completed := S (completed s);
                  progress_calls :=
                    if has_progress_callback
                    then progress_calls s ++ [(S (completed s), length conversations)]
                    else progress_calls s |}
      | _, _ => None
      end
  end.

(** A run: the events in the order in which they happen. *)
Fixpoint batch_run (evs : list batch_event) (s : batch_state) : option batch_state :=
  match evs with
  | [] => Some s
  | ev :: evs' =>
      match batch_do ev s with
      | Some s' => batch_run evs' s'
      | None => None
      end
  end.

(** What awaiting [asyncio.gather] on the tasks hands back once every task is
    done: the tasks' results in the order the tasks were passed. *)
Definition gather (s : batch_state) : option (list EvaluationResult) :=
  mapM (fun t => match t with Done r => Some r | _ => None end) (tasks s).


(** What holds of every state a run of the batch can reach. *)
Definition batch_inv (s : batch_state) : Prop :=
  length (tasks s) = length conversations /\
  (forall idx r, tasks s !! idx = Some (Done r) ->
     exists conv, conversations !! idx = Some conv /\
                  r = evaluate_with_semaphore conv idx) /\
  (permits s + Z.of_nat (batch_in_flight s) = concurrency)%Z /\
  completed s = batch_finished s.
End Batch.

(* ================================================================= *)
(** ** judge/rubrics/rubric_loader.py: [RubricLoader] *)

(** The configs directory, seen through [load]: a rubric name is absent when
    [<rubrics_dir>/<name>.json] does not exist, and otherwise maps to what
    [_load_from_file] does with the file: return a rubric, or raise. *)
Abbreviation configs_dir := (gmap string (exc Rubric)).

(** [load]: the loader's state is its [_cache]; the directory is read at the
    time of the call. *)
Definition load (dir : configs_dir) (rubric_name : string)
    (_cache : gmap string Rubric) : Rubric * gmap string Rubric :=
  match _cache !! rubric_name with
  | Some rubric => (rubric, _cache)
  | None =>
      if String.eqb rubric_name "default_rubric"
      then (DEFAULT_RUBRIC, <[rubric_name := DEFAULT_RUBRIC]> _cache)
      else
        match dir !! rubric_name with
        | Some (Ok rubric) => (rubric, <[rubric_name := rubric]> _cache)
        | Some (Raise _) => (DEFAULT_RUBRIC, _cache)
        | None => (DEFAULT_RUBRIC, _cache)
        end
  end.


(** The names a [RubricLoader] instance answers to: the methods of the class
    and the two attributes set by [__init__]. *)
Definition RubricLoader_attributes : list string :=
  ["__init__"; "load"; "_load_from_file"; "list_available"; "rubrics_dir"; "_cache"].

(** [getattr(loader, attr)]: the attribute is found or [AttributeError] is
    raised. *)
Definition RubricLoader_getattr (attr : string) : exc string :=
  if bool_decide (attr ∈ RubricLoader_attributes)
  then Ok attr
  else Raise (AttributeError ("'RubricLoader' object has no attribute '" +:+ attr +:+ "'")).

(* ================================================================= *)
(** ** judge/languagetool.py *)

(** The double quote, for the messages of CPython that contain one. *)
Definition dq : string := String (ascii_of_nat 34) EmptyString.

(** [len(v)] *)
Definition py_len (v : pyval) : exc nat :=
  match v with
  | PList l => Ok (length l)
  | PStr s => Ok (String.length s)
  | PDict d => Ok (length d)
  | _ => Raise (TypeError ("object of type '" +:+ type_name v +:+ "' has no len()"))
  end.

(** [for x in v]: the elements of a list, the characters of a string, the
    keys of a dict. *)
Definition py_iter (v : pyval) : exc (list pyval) :=
  match v with
  | PList l => Ok l
  | PStr s => Ok ((fun c => PStr (String c EmptyString)) <$> list_ascii_of_string s)
  | PDict d => Ok ((fun kv => PStr kv.1) <$> d)
  | _ => Raise (TypeError ("'" +:+ type_name v +:+ "' object is not iterable"))
  end.

(** [needle in v] for a string [needle] *)
Definition py_in (needle : string) (v : pyval) : exc bool :=
  match v with
  | PStr s => Ok (str_contains needle s)
  | PList l =>
      Ok (existsb (fun x => match x with PStr s => String.eqb needle s | _ => false end) l)
  | PDict d => Ok (dict_mem needle d)
  | _ => Raise (TypeError ("argument of type '" +:+ type_name v +:+ "' is not iterable"))
  end.

(** The integer a value of type [int] or [bool] holds. *)
Definition py_int (v : pyval) : option Z :=
  match v with
  | PInt n => Some n
  | PBool b => Some (if b then 1 else 0)%Z
  | _ => None
  end.

(** [v + adjustment], the adjustment being an [int] or a [float]: integers
    add to an [int], anything with a [float] to a [float]. *)
Definition py_add_num (v adjustment : pyval) : exc pyval :=
  let unsupported :=
    TypeError ("unsupported operand type(s) for +: '" +:+ type_name v +:+ "' and '"
               +:+ type_name adjustment +:+ "'") in
  let concatenate :=
    TypeError ("can only concatenate " +:+ type_name v +:+ " (not " +:+ dq
               +:+ type_name adjustment +:+ dq +:+ ") to " +:+ type_name v) in
  match v with
  | PStr _ | PList _ => Raise concatenate
  | _ =>
      match py_int v, py_int adjustment with
      | Some a, Some b => Ok (PInt (a + b))
      | _, _ =>
          match py_num v, py_num adjustment with
          | Some a, Some b => Ok (PFloat (a + b))
          | _, _ => Raise unsupported
          end
      end
  end.

(** [max(1, min(5, x))] for a number [x]: [min] keeps 5 unless [x < 5], [max]
    keeps 1 unless the other is greater. *)
Definition clamp_score (x : pyval) : pyval :=
  let q := from_option id 0%Q (py_num x) in
  let m := if Qlt_bool q 5 then x else PInt 5 in
  let qm := from_option id 0%Q (py_num m) in
  if Qlt_bool 1 qm then m else PInt 1.

(** [v + [x]] *)
Definition py_add_list (v : pyval) (x : pyval) : exc pyval :=
  match v with
  | PList l => Ok (PList (l ++ [x]))
  | PStr _ =>
      Raise (TypeError ("can only concatenate str (not " +:+ dq +:+ "list" +:+ dq
                        +:+ ") to str"))
  | _ =>
      Raise (TypeError ("unsupported operand type(s) for +: '" +:+ type_name v
                        +:+ "' and 'list'"))
  end.

(** What the integration obtains from outside: the POST to [/check] with
    [raise_for_status] and [response.json()], and the two formatters used by
    the f-strings ([repr] for values that are not strings, [:.2%] for the
    error rate). *)
Class LanguageToolEnv : Type := {
  lt_check : string -> string -> exc pyval;
  py_repr : pyval -> string;
  format_percent2 : Q -> string
}.

(** The value an f-string prints for [{v}]. *)
Definition py_format `{LanguageToolEnv} (v : pyval) : string :=
  match v with
  | PStr s => s
  | _ => py_repr v
  end.

(** The three message lists of lines 101-115. *)
Record error_lists : Type := {
  grammar_errors : list pyval;
  spelling_errors : list pyval;
  style_errors : list pyval
}.

Fixpoint categorize (matches : list pyval) (acc : error_lists) : exc error_lists :=
  match matches with
  | [] => Ok acc
  | m :: rest =>
      rule ← py_get m "rule" (PDict []);
      cat ← py_get rule "category" (PDict []);
      category ← py_get cat "id" (PStr "");
      message ← py_get m "message" (PStr "");
      is_speller ← py_in "SPELLER" category;
      is_spelling ← (if is_speller : bool then Ok true else py_in "SPELLING" category);
      if is_spelling : bool then
        categorize rest {| grammar_errors := grammar_errors acc;
                           spelling_errors := spelling_errors acc ++ [message];
                           style_errors := style_errors acc |}
      else
        is_grammar ← py_in "GRAMMAR" category;
        if is_grammar : bool then
          categorize rest {| grammar_errors := grammar_errors acc ++ [message];
                             spelling_errors := spelling_errors acc;
                             style_errors := style_errors acc |}
        else
          categorize rest {| grammar_errors := grammar_errors acc;
                             spelling_errors := spelling_errors acc;
                             style_errors := style_errors acc ++ [message] |}
  end.

(** Lines 122-129. *)
Definition adjustment_for (error_rate : Q) : pyval :=
  if Qlt_bool 0.1 error_rate then PInt (-2)
  else if Qlt_bool 0.05 error_rate then PInt (-1)
  else if Qlt_bool 0.02 error_rate then PFloat (-0.5)
  else PInt 0.

Definition with_dimensions (result : EvaluationResult)
    (ds : list (string * DimensionScore)) : EvaluationResult := {|
  conversation_id := conversation_id result;
  overall_score := overall_score result;
  dimension_scores := ds;
  chain_of_thought := chain_of_thought result;
  summary := summary result;
  improvement_suggestions := improvement_suggestions result;
  flags := flags result;
  model_name := model_name result;
  rubric_version := rubric_version result;
  processing_time_ms := processing_time_ms result;
  raw_response := raw_response result
|}.

Definition with_overall (result : EvaluationResult) (q : Q) : EvaluationResult := {|
  conversation_id := conversation_id result;
  overall_score := q;
  dimension_scores := dimension_scores result;
  chain_of_thought := chain_of_thought result;
  summary := summary result;
  improvement_suggestions := improvement_suggestions result;
  flags := flags result;
  model_name := model_name result;
  rubric_version := rubric_version result;
  processing_time_ms := processing_time_ms result;
  raw_response := raw_response result
|}.

Section LanguageTool.
Context `{lt : LanguageToolEnv}.
Variable base_url_lt : string.

(** [check_text]: every failure of the round trip becomes an empty list of
    matches with an [error] entry. *)
Definition check_text (text : string) : pyval :=
  match lt_check base_url_lt text with
  | Ok v => v
  | Raise e => PDict [("matches", PList []); ("error", PStr (str_exn e))]
  end.

(** Lines 117-147, once the matches are counted.  The object [result] is
    updated in place: the outcome is its final state, and the exception if
    one escaped. *)
Definition adjust_language_quality (result : EvaluationResult)
    (error_count : nat) (error_rate : Q) (errs : error_lists)
  : EvaluationResult * option exn :=
  match dict_get "language_quality" (dimension_scores result) with
  | None => (result, None)
  | Some original_dim =>
      let built :=
        moved ← py_add_num (score original_dim) (adjustment_for error_rate);
        ev ← py_add_list (evidence original_dim)
               (PStr ("LanguageTool error rate: " +:+ format_percent2 error_rate));
        Ok {| score := clamp_score moved;
              weight := weight original_dim;
              reasoning :=
                PStr (py_format (reasoning original_dim)
                      +:+ " [LanguageTool: " +:+ pretty error_count
                      +:+ " issues found - " +:+ pretty (length (grammar_errors errs))
                      +:+ " grammar, " +:+ pretty (length (spelling_errors errs))
                      +:+ " spelling, " +:+ pretty (length (style_errors errs))
                      +:+ " style]");
              evidence := ev |} in
      match built with
      | Raise e => (result, Some e)
      | Ok new_dim =>
          let result1 :=
            with_dimensions result
              (dict_set "language_quality" new_dim (dimension_scores result)) in
          let tw := total_weight (dimension_scores result1) in
          if Qlt_bool 0 tw then
            match sum_weighted 0 (dimension_scores result1) with
            | Ok s => (with_overall result1 (s / tw)%Q, None)
            | Raise e => (result1, Some e)
            end
          else (result1, None)
      end
  end.

(** [enhance_evaluation] *)
Definition enhance_evaluation (result : EvaluationResult) (chatbot_text : string)
  : EvaluationResult * option exn :=
  match str_strip chatbot_text with
  | EmptyString => (result, None)
  | _ =>
      let check_result := check_text chatbot_text in
      let counted :=
        matches ← py_get check_result "matches" (PList []);
        let word_count := length (str_split_ws chatbot_text) in
        error_count ← py_len matches;
        let error_rate := (inject_Z (Z.of_nat error_count)
                           / inject_Z (Z.of_nat (Nat.max word_count 1)))%Q in
        elems ← py_iter matches;
        errs ← categorize elems {| grammar_errors := []; spelling_errors := [];
                                   style_errors := [] |};
        Ok (error_count, error_rate, errs) in
      match counted with
      | Raise e => (result, Some e)
      | Ok (error_count, error_rate, errs) =>
          adjust_language_quality result error_count error_rate errs
      end
  end.
End LanguageTool.

(* ================================================================= *)
(** ** backend/app/services/meta_evaluation_service.py *)

Record CorrelationMetrics : Type := {
  pearson_r : Q;
  spearman_rho : Q;
  kendall_tau : Q;
  mean_absolute_error : Q;
  root_mean_squared_error : Q;
  cohen_kappa : Q;
  sample_size : nat
}.

Record MetaEvaluationResponse : Type := {
  overall_correlation : CorrelationMetrics;
  dimension_correlations : list (string * CorrelationMetrics);
  calibration_needed : bool;
  recommendations : list string;
  last_calculated : Z
}.

(** One row of [_get_score_pairs].  [judge_dimensions] holds, per dimension
    key, the [score] of the stored entry, [human_dimensions] the annotator's
    score; [None] is Python's [None] (no such entry, or a null). *)
Record score_pair : Type := {
  evaluation_id : string;
  judge_overall : Q;
  human_overall : Q;
  judge_dimensions : list (string * option Q);
  human_dimensions : list (string * option Q)
}.

(** What the service obtains from scipy, scikit-learn, numpy and the clock. *)
Class StatsEnv : Type := {
  pearsonr : list Q -> list Q -> Q;
  spearmanr : list Q -> list Q -> Q;
  kendalltau : list Q -> list Q -> Q;
  sk_mean_absolute_error : list Q -> list Q -> Q;
  sk_mean_squared_error : list Q -> list Q -> Q;
  np_sqrt : Q -> Q;
  cohen_kappa_score : list nat -> list nat -> Q;
  round4 : Q -> Q;
  format_2f : Q -> string;
  utcnow : Z
}.

(** [np.digitize(x, bins)] for increasing bins: how many cut points are at
    most [x]. *)
Definition np_digitize (bins : list Q) (x : Q) : nat :=
  length (filter (fun b => Qle_bool b x = true) bins).

Definition no_correlation (n : nat) : CorrelationMetrics := {|
  pearson_r := 0; spearman_rho := 0; kendall_tau := 0;
  mean_absolute_error := 0; root_mean_squared_error := 0;
  cohen_kappa := 0; sample_size := n
|}.

(** The two score lists collected for one dimension. *)
Record dimension_samples : Type := {
  judge_samples : list Q;
  human_samples : list Q
}.

Section MetaEvaluation.
Context `{stats : StatsEnv}.

(** [_calculate_correlation_metrics] *)
Definition _calculate_correlation_metrics (judge_scores human_scores : list Q)
  : CorrelationMetrics :=
  let n := length judge_scores in
  if n <? 2 then no_correlation n
  else
    let judge_bins := np_digitize [3; 5; 7; 9]%Q <$> judge_scores in
    let human_bins := np_digitize [3; 5; 7; 9]%Q <$> human_scores in
    {| pearson_r := round4 (pearsonr judge_scores human_scores);
       spearman_rho := round4 (spearmanr judge_scores human_scores);
       kendall_tau := round4 (kendalltau judge_scores human_scores);
       mean_absolute_error :=
         round4 (sk_mean_absolute_error human_scores judge_scores);
       root_mean_squared_error :=
         round4 (np_sqrt (sk_mean_squared_error human_scores judge_scores));
       cohen_kappa := round4 (cohen_kappa_score human_bins judge_bins);
       sample_size := n |}.

(** Lines 190-199: the keys of one pair's judge dimensions. *)
Fixpoint collect_keys (keys : list string) (judge_dims human_dims : list (string * option Q))
    (acc : list (string * dimension_samples)) : list (string * dimension_samples) :=
  match keys with
  | [] => acc
  | dim_key :: rest =>
      let acc1 :=
        if dict_mem dim_key acc then acc
        else dict_set dim_key {| judge_samples := []; human_samples := [] |} acc in
      let judge_score := mjoin (dict_get dim_key judge_dims) in
      let human_score := mjoin (dict_get dim_key human_dims) in
      let acc2 :=
        match judge_score, human_score, dict_get dim_key acc1 with
        | Some j, Some h, Some sc =>
            dict_set dim_key {| judge_samples := judge_samples sc ++ [j];
                                human_samples := human_samples sc ++ [h] |} acc1
        | _, _, _ => acc1
        end in
      collect_keys rest judge_dims human_dims acc2
  end.

(** Lines 185-199: the loop over the pairs. *)
Definition collect_dimension_scores (pairs : list score_pair)
  : list (string * dimension_samples) :=
  fold_left (fun acc pair =>
               collect_keys ((judge_dimensions pair).*1)
                 (judge_dimensions pair) (human_dimensions pair) acc)
            pairs [].

(** [_calculate_dimension_correlations] *)
Definition _calculate_dimension_correlations (pairs : list score_pair)
  : list (string * CorrelationMetrics) :=
  fold_left (fun acc kv =>
               if 5 <=? length (judge_samples kv.2)
               then dict_set kv.1
                      (_calculate_correlation_metrics (judge_samples kv.2)
                         (human_samples kv.2)) acc
               else acc)
            (collect_dimension_scores pairs) [].

(** [_check_calibration_needed] *)
Definition _check_calibration_needed (overall : CorrelationMetrics)
    (dims : list (string * CorrelationMetrics)) : bool :=
  if Qlt_bool (pearson_r overall) 0.80 then true
  else if Qlt_bool 1.0 (mean_absolute_error overall) then true
  else existsb (fun kv => Qlt_bool (pearson_r kv.2) 0.70) dims.

Definition sample_size_message (n : nat) : string :=
  "Current sample size (" +:+ pretty n +:+ ") is small. "
  +:+ "Aim for at least 50 human annotations for reliable metrics.".

Definition weak_correlation_message (r : Q) : string :=
  "Overall correlation (" +:+ format_2f r +:+ ") is below acceptable threshold (0.70). "
  +:+ "Consider reviewing prompt engineering and few-shot examples.".

Definition moderate_correlation_message (r : Q) : string :=
  "Overall correlation (" +:+ format_2f r +:+ ") is moderate. "
  +:+ "Minor calibration adjustments recommended.".

Definition excellent_correlation_message (r : Q) : string :=
  "Excellent correlation (" +:+ format_2f r +:+ ") achieved. "
  +:+ "Judge is well-calibrated with human assessments.".

Definition high_mae_message (m : Q) : string :=
  "High mean absolute error (" +:+ format_2f m +:+ "). "
  +:+ "Judge scores deviate significantly from human scores on average.".

Definition weak_dimensions_message (weak : list string) : string :=
  "Weak correlation in dimensions: " +:+ str_join ", " weak +:+ ". "
  +:+ "Review rubric criteria and scoring anchors for these dimensions.".

Definition calibration_message : string :=
  "CALIBRATION RECOMMENDED: Run recalibration process with additional "
  +:+ "human annotations to improve judge accuracy.".

Definition acceptable_message : string :=
  "Judge performance is within acceptable parameters.".

Definition insufficient_message : string :=
  "Insufficient data for meta-evaluation. Need at least 10 human annotations.".

(** Lines 276-279 *)
Definition weak_dimensions (dims : list (string * CorrelationMetrics)) : list string :=
  (fun kv => kv.1 +:+ " (" +:+ format_2f (pearson_r kv.2) +:+ ")")
    <$> filter (fun kv => Qlt_bool (pearson_r kv.2) 0.70 = true) dims.

(** [_generate_recommendations]: the list grows in the order of the
    [append] calls. *)
Definition _generate_recommendations (overall : CorrelationMetrics)
    (dims : list (string * CorrelationMetrics)) (calibration_needed : bool)
  : list string :=
  let r1 :=
    if sample_size overall <? 50 then [sample_size_message (sample_size overall)]
    else [] in
  let r2 :=
    if Qlt_bool (pearson_r overall) 0.70
    then r1 ++ [weak_correlation_message (pearson_r overall)]
    else if Qlt_bool (pearson_r overall) 0.80
    then r1 ++ [moderate_correlation_message (pearson_r overall)]
    else if Qle_bool 0.87 (pearson_r overall)
    then r1 ++ [excellent_correlation_message (pearson_r overall)]
    else r1 in
  let r3 :=
    if Qlt_bool 1.5 (mean_absolute_error overall)
    then r2 ++ [high_mae_message (mean_absolute_error overall)]
    else r2 in
  let r4 :=
    match weak_dimensions dims with
    | [] => r3
    | weak => r3 ++ [weak_dimensions_message weak]
    end in
  let r5 := if calibration_needed then r4 ++ [calibration_message] else r4 in
  match r5 with
  | [] => [acceptable_message]
  | _ => r5
  end.

(** [calculate_metrics], on the rows that [_get_score_pairs] returned. *)
Definition calculate_metrics (pairs : list score_pair) : MetaEvaluationResponse :=
  if length pairs <? 10 then
    {| overall_correlation := no_correlation (length pairs);
       dimension_correlations := [];
       calibration_needed := true;
       recommendations := [insufficient_message];
       last_calculated := utcnow |}
  else
    let judge_scores := judge_overall <$> pairs in
    let human_scores := human_overall <$> pairs in
    let overall_correlation := _calculate_correlation_metrics judge_scores human_scores in
    let dimension_correlations := _calculate_dimension_correlations pairs in
    let calibration_needed :=
      _check_calibration_needed overall_correlation dimension_correlations in
    let recommendations :=
      _generate_recommendations overall_correlation dimension_correlations
        calibration_needed in
    {| overall_correlation := overall_correlation;
       dimension_correlations := dimension_correlations;
       calibration_needed := calibration_needed;
       recommendations := recommendations;
       last_calculated := utcnow |}.
End MetaEvaluation.

(* ================================================================= *)
(** ** Concrete inputs for the examples *)

(** JSON texts are written with single quotes below and turned into the real
    text, with double quotes, by [js]. *)
Fixpoint js (s : string) : string :=
  match s with
  | EmptyString => EmptyString
  | String c s' =>
      String (if Ascii.eqb c "'"%char then ascii_of_nat 34 else c) (js s')
  end.

(** The answers of [json.loads] on the texts of the examples.  A text that is
    not listed is not used by any of them; the table maps it to the decoder's
    complaint about a text that does not start a JSON value. *)
Definition sample_json_table : list (string * pyval) := [
  ("[]", PList []);
  ("{}", PDict []);
  (js "{'dimension_scores': []}", PDict [("dimension_scores", PList [])]);
  (js "{'dimension_scores': {'accuracy': {'score': 2}, 'compliance': {'score': 4}}}",
   PDict [("dimension_scores",
           PDict [("accuracy", PDict [("score", PInt 2)]);
                  ("compliance", PDict [("score", PInt 4)])])]);
  (js "{'dimension_scores': {'efficiency': {'score': 5}}}",
   PDict [("dimension_scores", PDict [("efficiency", PDict [("score", PInt 5)])])]);
  (js "{'dimension_scores': {'tone': {'score': 5, 'weight': 0.9}, 'empathy': {}}}",
   PDict [("dimension_scores",
           PDict [("tone", PDict [("score", PInt 5); ("weight", PFloat 0.9)]);
                  ("empathy", PDict [])])])
].

Definition sample_json_loads (s : string) : exc pyval :=
  match dict_get s sample_json_table with
  | Some v => Ok v
  | None => Raise (JSONDecodeError "Expecting value: line 1 column 1 (char 0)")
  end.

(** A model endpoint that answers every prompt with the same text; it does
    not read the prompts, which are short stand-ins here. *)
Definition sample_env (answer : exc string) : EngineEnv := {|
  json_loads := sample_json_loads;
  _call_llm := fun _ _ _ => answer;
  _build_system_prompt := fun rubric => description rubric;
  _build_user_prompt := fun _ conv _ => conv_id conv;
  elapsed_ms := fun _ => 0%Z
|}.

Definition sample_config : JudgeConfig := {|
  provider := OPENAI_COMPATIBLE;
  cfg_model_name := "Qwen/Qwen2.5-72B-Instruct-GPTQ-Int4";
  base_url := "http://localhost:8080/v1";
  api_key := "not-needed";
  temperature := 0.1;
  max_tokens := 4096;
  timeout := 120
|}.

Definition sample_conversation (cid : string) : Conversation := {|
  conv_id := cid;
  category := "retoure";
  timestamp := 0;
  messages := [PDict [("role", PStr "customer"); ("content", PStr "Hallo")]];
  metadata := PDict []
|}.

(** A rubric whose weights sum to one and whose second dimension has weight
    zero, which the creation schema allows ([weight >= 0]). *)
Definition zero_weight_rubric : Rubric := {|
  name := "zero_weight";
  version := "1.0.0";
  description := "";
  dimensions := [
    ("accuracy", {| dim_name := "Accuracy"; dim_weight := 1.0;
                    dim_description := ""; scoring_guidelines := [] |});
    ("efficiency", {| dim_name := "Efficiency"; dim_weight := 0.0;
                      dim_description := ""; scoring_guidelines := [] |})];
  few_shot_examples := [];
  calibration_notes := ""
|}.

(** The model's answer used against the flag rule: accuracy 2, compliance 4,
    no flags reported. *)
Definition answer_low_scores : string :=
  js "{'dimension_scores': {'accuracy': {'score': 2}, 'compliance': {'score': 4}}}".

Definition answer_efficiency_five : string :=
  js "{'dimension_scores': {'efficiency': {'score': 5}}}".

Definition answer_tone_empathy : string :=
  js "{'dimension_scores': {'tone': {'score': 5, 'weight': 0.9}, 'empathy': {}}}".

(** The result of a parse known to succeed. *)
Definition parsed (m : exc EvaluationResult) : EvaluationResult :=
  match m with
  | Ok r => r
  | Raise e => _create_error_result "" (str_exn e)
  end.

(** A statistics backend that reports fixed values: [r] for every
    correlation, [mae] for the mean absolute error. *)
Definition sample_stats (r mae : Q) : StatsEnv := {|
  pearsonr := fun _ _ => r;
  spearmanr := fun _ _ => r;
  kendalltau := fun _ _ => r;
  sk_mean_absolute_error := fun _ _ => mae;
  sk_mean_squared_error := fun _ _ => (mae * mae)%Q;
  np_sqrt := fun _ => mae;
  cohen_kappa_score := fun _ _ => r;
  round4 := fun q => q;
  format_2f := fun _ => "0.00";
  utcnow := 0%Z
|}.

Definition sample_pair (judge human : Q) : score_pair := {|
  evaluation_id := "e";
  judge_overall := judge;
  human_overall := human;
  judge_dimensions := [("accuracy", Some judge)];
  human_dimensions := [("accuracy", Some human)]
|}.


(** The result built by the repository's component script for the
    integration. *)
Definition mock_result : EvaluationResult := {|
  conversation_id := "test-123";
  overall_score := 0.8;
  dimension_scores := [
    ("language_quality",
     {| score := PFloat 4.0; weight := 0.10;
        reasoning := PStr "Good German language quality";
        evidence := PList [PStr "No major issues"] |})];
  chain_of_thought := {| context_analysis := PStr "Test context";
                         response_analysis := PStr "Test response";
                         legal_check := PStr "No issues";
                         language_assessment := PStr "Good German" |};
  summary := PStr "Test summary";
  improvement_suggestions := PList [];
  flags := {| critical_error := PBool false; compliance_issue := PBool false;
              escalation_needed := PBool false |};
  model_name := "test-model";
  rubric_version := "1.0.0";
  processing_time_ms := 100;
  raw_response := None
|}.


(* ================================================================= *)
(** * The rest of the code *)

From Stdlib Require Import Lqa.
From Stdlib Require Qabs.

(** ** judge/engine.py: what a run of the batch keeps true *)

(** The calls a progress callback has received after [n] completions out of
    [total] (lines 211-213). *)
Definition progress_upto (total n : nat) : list (nat * nat) :=
  (fun i => (S i, total)) <$> seq 0 n.

(** The semaphore never counts below zero, and the callback, if there is
    one, has been called once per completion with the running count. *)
Definition semaphore_inv (total : nat) (has_progress_callback : bool)
    (s : batch_state) : Prop :=
  (0 <= permits s)%Z /\
  progress_calls s
  = if has_progress_callback then progress_upto total (completed s) else [].

(** ** judge/engine.py: scores within a range *)


(** ** judge/engine.py: results that differ in the raw text only *)

(** [r] with the raw text, where it keeps one, replaced by [response]. *)
Definition with_response (response : string) (r : EvaluationResult)
  : EvaluationResult := {|
  conversation_id := conversation_id r;
  overall_score := overall_score r;
  dimension_scores := dimension_scores r;
  chain_of_thought := chain_of_thought r;
  summary := summary r;
  improvement_suggestions := improvement_suggestions r;
  flags := flags r;
  model_name := model_name r;
  rubric_version := rubric_version r;
  processing_time_ms := processing_time_ms r;
  raw_response := (fun _ => response) <$> raw_response r
|}.

Definition exc_map {A B} (f : A -> B) (m : exc A) : exc B :=
  match m with
  | Ok a => Ok (f a)
  | Raise e => Raise e
  end.

(** ** judge/languagetool.py: what the enhancement leaves alone *)

(** The fields of a result that the enhancement never writes. *)
Definition same_outside_scores (r result : EvaluationResult) : Prop :=
  conversation_id r = conversation_id result /\
  chain_of_thought r = chain_of_thought result /\
  summary r = summary result /\
  improvement_suggestions r = improvement_suggestions result /\
  flags r = flags result /\
  model_name r = model_name result /\
  rubric_version r = rubric_version result /\
  processing_time_ms r = processing_time_ms result /\
  raw_response r = raw_response result.

(** The overall score of [r] is what the engine's rule (engine.py, lines
    313-320) gives for the dimension scores of [r]. *)
Definition overall_consistent (r : EvaluationResult) : Prop :=
  exists q, calculate_overall (dimension_scores r) = Ok q /\ (q == overall_score r)%Q.

(** A LanguageTool server that reports one issue of the category TYPOS,
    whatever the text.  The examples format only the error rate of one issue
    in four words. *)
Definition one_issue_languagetool : LanguageToolEnv := {|
  lt_check := fun _ _ =>
    Ok (PDict [("matches",
                PList [PDict [("message", PStr "Möglicher Tippfehler gefunden");
                              ("rule",
                               PDict [("id", PStr "GERMAN_SPELLER_RULE");
                                      ("category", PDict [("id", PStr "TYPOS")])])]])]);
  py_repr := fun v => type_name v;
  format_percent2 := fun _ => "25.00%"
|}.

(* ================================================================= *)
(** ** backend/app/services/evaluation_service.py *)

(** [c.lower()] and [s.lower()] on the ASCII range; the other bytes of a
    UTF-8 text are left as they are, which does not change whether the
    result is one of the ASCII words below. *)
Definition ascii_lower (c : ascii) : ascii :=
  let n := nat_of_ascii c in
  if (65 <=? n) && (n <=? 90) then ascii_of_nat (n + 32) else c.

Fixpoint str_lower (s : string) : string :=
  match s with
  | EmptyString => EmptyString
  | String c s' => String (ascii_lower c) (str_lower s')
  end.

(** [v.lower()] *)
Definition py_lower (v : pyval) : exc string :=
  match v with
  | PStr s => Ok (str_lower s)
  | _ => Raise (no_attribute v "lower")
  end.

(** The strings of [l], as [str.join] reads them: the first item that is
    not a string raises, with its index. *)
Fixpoint join_items (i : nat) (l : list pyval) : exc (list string) :=
  match l with
  | [] => Ok []
  | PStr s :: l' => rest ← join_items (S i) l'; Ok (s :: rest)
  | v :: _ =>
      Raise (TypeError ("sequence item " +:+ pretty i +:+ ": expected str instance, "
                        +:+ type_name v +:+ " found"))
  end.

(** [sep.join(l)] *)
Definition py_join (sep : string) (l : list pyval) : exc string :=
  items ← join_items 0 l; Ok (str_join sep items).

(** The line feed. *)
Definition nl : string := String (ascii_of_nat 10) EmptyString.

(** The roles whose messages are the chatbot's (line 280). *)
Definition chatbot_roles : list string := ["chatbot"; "assistant"; "agent"].

(** Lines 277-281: the loop of [_extract_chatbot_text]. *)
Fixpoint chatbot_texts (messages : list pyval) (acc : list pyval) : exc (list pyval) :=
  match messages with
  | [] => Ok acc
  | msg :: rest =>
      role_value ← py_get msg "role" (PStr "");
      role ← py_lower role_value;
      if existsb (String.eqb role) chatbot_roles then
        content ← py_get msg "content" (PStr "");
        chatbot_texts rest (acc ++ [content])
      else chatbot_texts rest acc
  end.

(** [_extract_chatbot_text] *)
Definition _extract_chatbot_text (messages : list pyval) : exc string :=
  texts ← chatbot_texts messages [];
  py_join (nl +:+ nl) texts.

(** [s.rstrip("/")] *)
Fixpoint str_rstrip_slash (s : string) : string :=
  match s with
  | EmptyString => EmptyString
  | String c s' =>
      match str_rstrip_slash s' with
      | EmptyString => if Ascii.eqb c "/" then EmptyString else String c EmptyString
      | r => String c r
      end
  end.

(** Lines 112-118 of [evaluate_conversation]: the optional enhancement.  The
    integration is created on the configured address, without its trailing
    slashes; whatever is raised on the way is logged and dropped, and the
    result object is left in the state it had reached. *)
Definition languagetool_step `{lt : LanguageToolEnv} (LANGUAGETOOL_URL : string)
    (enhance_with_languagetool LANGUAGETOOL_ENABLED : bool)
    (messages : list pyval) (result : EvaluationResult) : EvaluationResult :=
  if enhance_with_languagetool && LANGUAGETOOL_ENABLED then
    match _extract_chatbot_text messages with
    | Ok chatbot_text =>
        (enhance_evaluation (str_rstrip_slash LANGUAGETOOL_URL) result chatbot_text).1
    | Raise _ => result
    end
  else result.

(** A message as the API stores it: an object whose role and content, where
    it has them, are strings. *)
Definition message_fields (msg : pyval) (role content : string) : Prop :=
  exists d, msg = PDict d /\
            from_option id (PStr "") (dict_get "role" d) = PStr role /\
            from_option id (PStr "") (dict_get "content" d) = PStr content.

(** The message is one of the chatbot's. *)
Definition spoken_by_chatbot (role : string) : bool :=
  existsb (String.eqb (str_lower role)) chatbot_roles.

(* ================================================================= *)
(** ** backend/app/services/meta_evaluation_service.py: per dimension *)

(** The two scores a pair holds for a dimension, when the judge scored the
    dimension and the annotator did too. *)
Definition paired_score (dim_key : string) (pair : score_pair) : option (Q * Q) :=
  match mjoin (dict_get dim_key (judge_dimensions pair)),
        mjoin (dict_get dim_key (human_dimensions pair)) with
  | Some judge_score, Some human_score => Some (judge_score, human_score)
  | _, _ => None
  end.

(** These scores over all pairs, in the order of the pairs. *)
Definition paired_scores (dim_key : string) (pairs : list score_pair) : list (Q * Q) :=
  omap (paired_score dim_key) pairs.

(** The samples of a dimension with one more pair of scores, if there is
    one. *)
Definition add_sample (sc : dimension_samples) (s : option (Q * Q)) : dimension_samples :=
  match s with
  | Some (j, h) => {| judge_samples := judge_samples sc ++ [j];
                      human_samples := human_samples sc ++ [h] |}
  | None => sc
  end.

(** The entry that the first loop (lines 185-199) holds for a dimension
    after the pairs: none unless some pair lists the dimension among the
    judge's, and else the paired scores. *)
Definition collected_samples (dim_key : string) (pairs : list score_pair)
  : option dimension_samples :=
  if existsb (fun pair => dict_mem dim_key (judge_dimensions pair)) pairs
  then Some {| judge_samples := (paired_scores dim_key pairs).*1;
               human_samples := (paired_scores dim_key pairs).*2 |}
  else None.

(* ================================================================= *)
(** ** backend/app/core/config.py *)


(* ================================================================= *)
(** ** backend/app/services/meta_evaluation_service.py: the annotators *)

(** One row of the query of [get_inter_annotator_agreement], with the
    evaluation's identifier as [str] prints it. *)
Record annotation_row : Type := {
  row_evaluation_id : string;
  row_annotator_id : string;
  row_overall_score : Q
}.

(** Lines 317-322: the scores by evaluation and annotator.  A later row of
    the same evaluation and annotator takes the place of the earlier one. *)
Definition group_annotations (rows : list annotation_row)
  : list (string * list (string * Q)) :=
  fold_left
    (fun evaluation_scores row =>
       let eval_id := row_evaluation_id row in
       let evaluation_scores1 :=
         if dict_mem eval_id evaluation_scores then evaluation_scores
         else dict_set eval_id [] evaluation_scores in
       match dict_get eval_id evaluation_scores1 with
       | Some scores =>
           dict_set eval_id
             (dict_set (row_annotator_id row) (row_overall_score row) scores)
             evaluation_scores1
       | None => evaluation_scores1
       end)
    rows [].

(** Lines 325-328: the evaluations with two annotators or more. *)
Definition multi_annotated (evaluation_scores : list (string * list (string * Q)))
  : list (string * list (string * Q)) :=
  filter (fun kv => 2 <= length kv.2) evaluation_scores.

(** Lines 341-344: [1 - diff / 10] for every two scores of a list, the
    first with all later ones, then the second, and so on. *)
Fixpoint pairwise_agreements (score_list : list Q) : list Q :=
  match score_list with
  | [] => []
  | x :: rest =>
      ((fun y => 1 - Qabs.Qabs (x - y) / 10)%Q <$> rest) ++ pairwise_agreements rest
  end.

(** Lines 338-344 *)
Definition all_agreements (multi : list (string * list (string * Q))) : list Q :=
  mbind (fun kv => pairwise_agreements (kv.2.*2)) multi.

(** [np.mean] of a list that is not empty. *)
Definition np_mean (l : list Q) : Q :=
  (foldr Qplus 0 l / inject_Z (Z.of_nat (length l)))%Q.

(** [get_inter_annotator_agreement], on the rows of its query. *)
Definition get_inter_annotator_agreement `{stats : StatsEnv}
    (rows : list annotation_row) : pyval :=
  let multi := multi_annotated (group_annotations rows) in
  if length multi <? 5 then
    PDict [("krippendorff_alpha", PNone);
           ("sample_size", PInt (Z.of_nat (length multi)));
           ("message",
            PStr "Insufficient multi-annotated samples for agreement calculation")]
  else
    let agreements := all_agreements multi in
    let avg_agreement :=
      match agreements with
      | [] => 0%Q
      | _ => np_mean agreements
      end in
    PDict [("average_pairwise_agreement", PFloat (round4 avg_agreement));
           ("sample_size", PInt (Z.of_nat (length multi)));
           ("total_annotation_pairs", PInt (Z.of_nat (length agreements)))].

(** The number of ways to pick two of the annotators of each evaluation. *)
Definition annotator_pairs (multi : list (string * list (string * Q))) : nat :=
  sum_list ((fun kv => length kv.2 * (length kv.2 - 1) / 2) <$> multi).

(* ================================================================= *)
(** ** backend/app/services/meta_evaluation_service.py: the calibration
    set *)

(** A stored evaluation, as far as [get_calibration_set] reads it; the two
    identifiers are held as [str] prints them. *)
Record stored_evaluation : Type := {
  stored_id : string;
  stored_conversation_id : string;
  stored_overall_score : Q;
  stored_dimension_scores : pyval;
  stored_summary : pyval
}.

(** The three score ranges of lines 380-384, in the order of the dict. *)
Inductive score_range : Type := low | medium | high.

Definition in_range (r : score_range) (e : stored_evaluation) : bool :=
  match r with
  | low => Qlt_bool (stored_overall_score e) 4
  | medium => Qle_bool 4 (stored_overall_score e) && Qlt_bool (stored_overall_score e) 7
  | high => Qle_bool 7 (stored_overall_score e)
  end.

(** The entry of the returned list for one evaluation (lines 397-403). *)
Definition calibration_item (e : stored_evaluation) : pyval :=
  PDict [("evaluation_id", PStr (stored_id e));
         ("conversation_id", PStr (stored_conversation_id e));
         ("judge_overall_score", PFloat (stored_overall_score e));
         ("dimension_scores", stored_dimension_scores e);
         ("summary", stored_summary e)].

(** [selected[:size]] *)
Definition py_slice_to {A} (l : list A) (size : Z) : list A :=
  if (0 <=? size)%Z then take (Z.to_nat size) l
  else take (length l - Z.to_nat (- size)) l.

Section CalibrationSet.
(** What [np.random.choice(n, k, replace=False)] returned when it was called
    for a range. *)
Variable random_choice : score_range -> nat -> nat -> list nat.

(** Lines 390-394, for one range. *)
Definition sample_range (evaluations : list stored_evaluation) (size : Z)
    (r : score_range) : exc (list stored_evaluation) :=
  let evals := filter (fun e => in_range r e = true) evaluations in
  let samples_per_range := (size / 3)%Z in
  let sample_size := Z.min samples_per_range (Z.of_nat (length evals)) in
  if (0 <? sample_size)%Z then
    mapM (py_index evals) (random_choice r (length evals) (Z.to_nat sample_size))
  else Ok [].

(** [get_calibration_set], on the evaluations that have no annotation
    yet. *)
Definition get_calibration_set (evaluations : list stored_evaluation) (size : Z)
  : exc (list pyval) :=
  match evaluations with
  | [] => Ok []
  | _ =>
      from_low ← sample_range evaluations size low;
      from_medium ← sample_range evaluations size medium;
      from_high ← sample_range evaluations size high;
      Ok (calibration_item <$> py_slice_to (from_low ++ from_medium ++ from_high) size)
  end.
End CalibrationSet.

(** [np.random.choice] draws without replacement: as many indices as asked
    for, each below the bound, none twice. *)
Definition draws_without_replacement
    (random_choice : score_range -> nat -> nat -> list nat) : Prop :=
  forall r n k, k <= n ->
    length (random_choice r n k) = k /\
    Forall (fun i => i < n) (random_choice r n k) /\
    NoDup (random_choice r n k).

(** How many evaluations a range contributes: a third of the requested
    size, rounded down, or all the range has. *)
Definition range_quota (evaluations : list stored_evaluation) (size : Z)
    (r : score_range) : nat :=
  Z.to_nat (Z.min (size / 3)
              (Z.of_nat (length (filter (fun e => in_range r e = true) evaluations)))).

(** A draw that takes the first indices, and four stored evaluations, one
    below 4, one between 4 and 7, two from 7 on. *)
Definition first_indices (r : score_range) (n k : nat) : list nat := seq 0 k.

Definition sample_stored (id : string) (overall : Q) : stored_evaluation := {|
  stored_id := id;
  stored_conversation_id := "c-" +:+ id;
  stored_overall_score := overall;
  stored_dimension_scores := PDict [];
  stored_summary := PStr ""
|}.

Definition sample_unannotated : list stored_evaluation :=
  [sample_stored "1" 2; sample_stored "2" 5; sample_stored "3" 8; sample_stored "4" 9].

(* ================================================================= *)
(** ** backend/app/api/routes.py: [health_check] *)

Module Health.

Record HealthResponse : Type := {
  status : string;
  version : string;
  database : string;
  redis : string;
  judge_model : string;
  timestamp : Z
}.

(** The three probes of the handler: the query on the database; the ping of
    Redis with the connect before and the close after; the GET of the judge's
    [/models], which answers with a status code.  Each returns or raises. *)
Class HealthEnv : Type := {
  database_probe : exc unit;
  redis_probe : exc unit;
  judge_probe : exc Z;
  APP_VERSION : string;
  utcnow : Z
}.

Section HealthCheck.
Context `{probes : HealthEnv}.

Definition db_status : string :=
  match database_probe with
  | Ok _ => "healthy"
  | Raise e => "unhealthy: " +:+ str_exn e
  end.

Definition redis_status : string :=
  match redis_probe with
  | Ok _ => "healthy"
  | Raise e => "unhealthy: " +:+ str_exn e
  end.

Definition judge_status : string :=
  match judge_probe with
  | Ok status_code =>
      if (status_code =? 200)%Z then "healthy"
      else "degraded: status " +:+ pretty status_code
  | Raise e => "unhealthy: " +:+ str_exn e
  end.

(** Lines 69-73 *)
Definition overall_status : string :=
  if str_contains "unhealthy" db_status || str_contains "unhealthy" redis_status
  then "unhealthy"
  else if str_contains "unhealthy" judge_status || str_contains "degraded" judge_status
  then "degraded"
  else "healthy".

Definition health_check : HealthResponse := {|
  status := overall_status;
  version := APP_VERSION;
  database := db_status;
  redis := redis_status;
  judge_model := judge_status;
  timestamp := utcnow
|}.
End HealthCheck.

End Health.

(* ================================================================= *)
(** ** backend/app/services/evaluation_service.py: storing a batch *)

(** The rows of backend/app/models/database.py that the service reads and
    writes, with the columns it touches; identifiers are held as [str]
    prints them. *)
Module Database.

Record Conversation : Type := {
  id : string;
  category : string;
  conversation_timestamp : Z;
  messages : list pyval;
  metadata_json : pyval
}.

Record Evaluation : Type := {
  conversation_id : string;
  job_id : option string;
  overall_score : Q;
  dimension_scores : pyval;
  chain_of_thought : pyval;
  summary : pyval;
  improvement_suggestions : pyval;
  critical_error : pyval;
  compliance_issue : pyval;
  escalation_needed : pyval;
  model_name : string;
  rubric_version : string;
  processing_time_ms : Z;
  raw_response : option string
}.

End Database.

(** [bool(v)] *)
Definition py_truthy (v : pyval) : bool :=
  match v with
  | PNone => false
  | PBool b => b
  | PInt n => negb (n =? 0)%Z
  | PFloat q => negb (Qeq_bool q 0)
  | PStr s => negb (String.eqb s "")
  | PList l => negb (bool_decide (length l = 0))
  | PDict d => negb (bool_decide (length d = 0))
  end.

(** [v or w] *)
Definition py_or (v w : pyval) : pyval := if py_truthy v then v else w.

(** Lines 219-228: the conversation in the judge's format. *)
Definition to_judge_conversation (c : Database.Conversation) : Conversation := {|
  conv_id := Database.id c;
  category := Database.category c;
  timestamp := Database.conversation_timestamp c;
  messages := Database.messages c;
  metadata := py_or (Database.metadata_json c) (PDict [])
|}.

(** The dimension scores as the JSON column holds them. *)
Definition dimension_scores_json (ds : list (string * DimensionScore)) : pyval :=
  PDict ((fun kv => (kv.1, PDict [("score", score kv.2);
                                   ("weight", PFloat (weight kv.2));
                                   ("reasoning", reasoning kv.2);
                                   ("evidence", evidence kv.2)])) <$> ds).

Definition chain_of_thought_json (cot : ChainOfThought) : pyval :=
  PDict [("context_analysis", context_analysis cot);
         ("response_analysis", response_analysis cot);
         ("legal_check", legal_check cot);
         ("language_assessment", language_assessment cot)].


Section EvaluationService.
Context `{env : EngineEnv}.
(** The service's judge configuration, its rubric directory and the state of
    its loader's cache. *)
Variable _judge_config : JudgeConfig.
Variable dir : configs_dir.
Variable _cache : gmap string Rubric.

End EvaluationService.

(** ** backend/app/services/evaluation_service.py: one conversation *)

(** [_result_to_dict] *)
Definition _result_to_dict (result : EvaluationResult) : pyval :=
  PDict [("conversation_id", PStr (conversation_id result));
         ("overall_score", PFloat (overall_score result));
         ("dimension_scores", dimension_scores_json (dimension_scores result));
         ("chain_of_thought", chain_of_thought_json (chain_of_thought result));
         ("summary", summary result);
         ("improvement_suggestions", improvement_suggestions result);
         ("flags", PDict [("critical_error", critical_error (flags result));
                          ("compliance_issue", compliance_issue (flags result));
                          ("escalation_needed", escalation_needed (flags result))]);
         ("model_name", PStr (model_name result));
         ("rubric_version", PStr (rubric_version result));
         ("processing_time_ms", PInt (processing_time_ms result))].

(** Lines 122-150: the row built by [evaluate_conversation]. *)
Definition evaluation_row (conv : Database.Conversation) (job_id : option string)
    (result : EvaluationResult) : Database.Evaluation := {|
  Database.conversation_id := Database.id conv;
  Database.job_id := job_id;
  Database.overall_score := overall_score result;
  Database.dimension_scores := dimension_scores_json (dimension_scores result);
  Database.chain_of_thought := chain_of_thought_json (chain_of_thought result);
  Database.summary := summary result;
  Database.improvement_suggestions := improvement_suggestions result;
  Database.critical_error := critical_error (flags result);
  Database.compliance_issue := compliance_issue (flags result);
  Database.escalation_needed := escalation_needed (flags result);
  Database.model_name := model_name result;
  Database.rubric_version := rubric_version result;
  Database.processing_time_ms := processing_time_ms result;
  Database.raw_response := raw_response result
|}.

Section EvaluateConversation.
Context `{env : EngineEnv} `{lt : LanguageToolEnv}.
Variable _judge_config : JudgeConfig.
Variable dir : configs_dir.
Variable _cache : gmap string Rubric.
(** The two settings of the LanguageTool integration. *)
Variable LANGUAGETOOL_URL : string.
Variable LANGUAGETOOL_ENABLED : bool.

(** Lines 91-118 of [evaluate_conversation]: the result that is stored or
    returned. *)
Definition evaluated_result (conversation : Database.Conversation)
    (rubric_name : string) (include_few_shot enhance_with_languagetool : bool)
  : EvaluationResult :=
  let rubric := (load dir rubric_name _cache).1 in
  let judge_conv := to_judge_conversation conversation in
  let result := evaluate _judge_config rubric judge_conv include_few_shot in
  languagetool_step LANGUAGETOOL_URL enhance_with_languagetool LANGUAGETOOL_ENABLED
    (Database.messages conversation) result.

(** [evaluate_conversation]: with a database session the row that is added
    to it, without one the result as a dict. *)
Definition evaluate_conversation (has_db : bool) (conversation : Database.Conversation)
    (rubric_name : string) (include_few_shot : bool) (job_id : option string)
    (enhance_with_languagetool : bool) : Database.Evaluation + pyval :=
  let result := evaluated_result conversation rubric_name include_few_shot
                  enhance_with_languagetool in
  if has_db then inl (evaluation_row conversation job_id result)
  else inr (_result_to_dict result).
End EvaluateConversation.

(** A stored conversation in which the chatbot has spoken. *)
Definition sample_stored_conversation : Database.Conversation := {|
  Database.id := "c-1";
  Database.category := "retoure";
  Database.conversation_timestamp := 0;
  Database.messages := [PDict [("role", PStr "customer"); ("content", PStr "Hallo")];
                        PDict [("role", PStr "chatbot"); ("content", PStr "Dies ist ein Tset.")]];
  Database.metadata_json := PNone
|}.

(* ================================================================= *)
(** ** backend/app/api/routes.py: the pages of a listing *)

Module Routes.




End Routes.


(* ================================================================= *)
(** * Properties *)

(** ** Tactics *)

(** Unfolds the binds of the error monad in [H] and splits on their
    outcomes; the branches that raised contradict [H]. *)
Ltac exc_inv H :=
  repeat match type of H with
         | context [mbind _ ?m] =>
             let E := fresh "E" in
             destruct m eqn:E; cbn [mbind exc_bind] in H; [|discriminate H]
         end.

(** ** Comparisons and strings *)

Lemma Qlt_bool_iff (x y : Q) : Qlt_bool x y = true <-> (x < y)%Q.
Proof.
  unfold Qlt_bool. rewrite negb_true_iff. split.
  - intros H. apply Qnot_le_lt. intros Hle. apply Qle_bool_iff in Hle. congruence.
  - intros H. destruct (Qle_bool y x) eqn:E; [|done].
    apply Qle_bool_iff in E. exfalso. by eapply Qlt_not_le.
Qed.






Lemma str_lstrip_head (s : string) :
  str_lstrip s = EmptyString \/
  exists c r, str_lstrip s = String c r /\ is_space c = false.
Proof.
  induction s as [|c s IH]; cbn; [by left|].
  destruct (is_space c) eqn:Hc; [done|]. right. by exists c, s.
Qed.

Lemma str_lstrip_empty (s : string) :
  str_lstrip s = EmptyString <-> whitespace_only s = true.
Proof.
  unfold whitespace_only. induction s as [|c s IH]; cbn; [done|].
  destruct (is_space c); cbn; [done|]. split; discriminate.
Qed.

(** [s.strip()] is empty exactly when [s] is empty or all whitespace. *)
Lemma str_strip_empty (s : string) :
  str_strip s = EmptyString <-> whitespace_only s = true.
Proof.
  rewrite <- str_lstrip_empty. unfold str_strip. split.
  - intros H. destruct (str_lstrip_head s) as [->|(c & r & Hl & Hc)]; [done|].
    rewrite Hl in H. cbn in H. rewrite Hc in H. by destruct (str_rstrip r).
  - by intros ->.
Qed.

(** ** The overall score *)




Lemma sum_weighted_total ds : forall a,
  Forall (fun kv => is_Some (py_num (score kv.2))) ds ->
  exists s, sum_weighted a ds = Ok s.
Proof.
  induction ds as [|[k d] ds IH]; intros a Hall; cbn.
  - by eexists.
  - inversion Hall as [|? ? [q Hq] Hall']; subst. cbn in Hq.
    unfold py_truediv_float. rewrite Hq. cbn. by apply IH.
Qed.



(** ** Dictionaries *)

Lemma dict_get_None {A} (k : string) (d : list (string * A)) :
  dict_get k d = None <-> k ∉ d.*1.
Proof.
  induction d as [|[k' v] d IH]; cbn.
  - split; [intros _; apply not_elem_of_nil|done].
  - rewrite not_elem_of_cons. destruct (String.eqb_spec k k') as [->|Hne].
    + split; [done|]. by intros [? _].
    + rewrite IH. tauto.
Qed.

Lemma dict_get_app {A} (k : string) (d1 d2 : list (string * A)) :
  dict_get k (d1 ++ d2) =
  match dict_get k d1 with Some v => Some v | None => dict_get k d2 end.
Proof.
  induction d1 as [|[k' v] d1 IH]; cbn; [done|].
  by destruct (String.eqb k k').
Qed.

Lemma dict_set_fresh {A} (k : string) (v : A) (d : list (string * A)) :
  dict_get k d = None -> dict_set k v d = d ++ [(k, v)].
Proof.
  induction d as [|[k' v'] d IH]; cbn; [done|].
  destruct (String.eqb k k'); [done|]. intros H. by rewrite IH.
Qed.

Lemma dict_get_elem_of {A} (k : string) (v : A) (d : list (string * A)) :
  wf_dict d -> (k, v) ∈ d -> dict_get k d = Some v.
Proof.
  unfold wf_dict. induction d as [|[k' v'] d IH]; cbn; intros Hnd Hin.
  - by apply elem_of_nil in Hin.
  - apply NoDup_cons in Hnd as [Hk' Hnd]. apply elem_of_cons in Hin as [Heq|Hin].
    + injection Heq as <- <-. by rewrite String.eqb_refl.
    + destruct (String.eqb_spec k k') as [->|Hne]; [|by apply IH].
      exfalso. apply Hk'. apply list_elem_of_fmap. by exists (k', v).
Qed.

(** ** The parser *)

Lemma rubric_weight_spec rubric dim_name :
  rubric_weight rubric dim_name =
  match dict_get dim_name (dimensions rubric) with
  | Some rd => dim_weight rd
  | None => 0.1%Q
  end.
Proof.
  unfold rubric_weight, dict_mem.
  by destruct (dict_get dim_name (dimensions rubric)).
Qed.

Lemma parse_dimension_scores_spec rubric items : forall acc res,
  parse_dimension_scores rubric items acc = Ok res ->
  wf_dict items ->
  (forall k, k ∈ items.*1 -> dict_get k acc = None) ->
  Forall (fun kv => exists fields, kv.2 = PDict fields) items /\
  res = acc ++ ((fun kv => (kv.1, spec_dimension_score rubric kv.1 (fields_of kv.2)))
                  <$> items).
Proof.
  unfold wf_dict.
  induction items as [|[k v] items IH]; intros acc res H Hnd Hfresh; cbn in H.
  - injection H as <-. split; [constructor|]. cbn. by rewrite app_nil_r.
  - destruct v as [| | | | | |fields]; try discriminate H. cbn in H.
    cbn in Hnd. apply NoDup_cons in Hnd as [Hk Hnd].
    rewrite dict_set_fresh in H by (apply Hfresh; cbn; apply list_elem_of_here).
    apply IH in H as [Hall ->]; [|done|].
    + split; [constructor; [by eexists|done]|].
      rewrite <- app_assoc. cbn. unfold spec_dimension_score at 2.
      by rewrite rubric_weight_spec.
    + intros k' Hk'. rewrite dict_get_app.
      rewrite Hfresh by (cbn; by apply list_elem_of_further). cbn.
      destruct (String.eqb_spec k' k) as [->|]; [done|done].
Qed.

Lemma parse_data_inv rubric data response cid r :
  parse_data rubric data response cid = Ok r ->
  exists ds_data items flags_data,
    py_get data "dimension_scores" (PDict []) = Ok ds_data /\
    py_items ds_data = Ok items /\
    parse_dimension_scores rubric items [] = Ok (dimension_scores r) /\
    calculate_overall (dimension_scores r) = Ok (overall_score r) /\
    py_get data "flags" (PDict []) = Ok flags_data /\
    py_get flags_data "critical_error" (PBool false) = Ok (critical_error (flags r)) /\
    py_get flags_data "compliance_issue" (PBool false) = Ok (compliance_issue (flags r)) /\
    py_get flags_data "escalation_needed" (PBool false)
      = Ok (escalation_needed (flags r)) /\
    conversation_id r = cid /\
    raw_response r = Some response.
Proof.
  unfold parse_data. intros H. exc_inv H. injection H as <-. cbn.
  repeat eexists; eassumption.
Qed.

Lemma parse_dimension_scores_total rubric items : forall acc,
  Forall (fun kv => exists fields, kv.2 = PDict fields) items ->
  exists res, parse_dimension_scores rubric items acc = Ok res.
Proof.
  induction items as [|[k v] items IH]; intros acc Hall; cbn.
  - by eexists.
  - inversion Hall as [|? ? [fields Hf] Hall']; subst. cbn in Hf. subst v. cbn.
    by apply IH.
Qed.

(** The parser returns on every answer of the expected shape: an object
    whose [dimension_scores], [chain_of_thought] and [flags], where present,
    are objects, and whose dimension entries are objects with numbers for
    scores. *)
Lemma parse_data_returns rubric d response cid items :
  from_option id (PDict []) (dict_get "dimension_scores" d) = PDict items ->
  wf_dict items ->
  Forall (fun kv => exists fields,
            kv.2 = PDict fields /\
            is_Some (py_num (from_option id (PInt 3) (dict_get "score" fields)))) items ->
  type_name (from_option id (PDict []) (dict_get "chain_of_thought" d)) = "dict" ->
  type_name (from_option id (PDict []) (dict_get "flags" d)) = "dict" ->
  exists r, parse_data rubric (PDict d) response cid = Ok r.
Proof.
  intros Hds Hwf Hitems Hcot Hflags. unfold parse_data. cbn [py_get mbind exc_bind].
  rewrite Hds. cbn [py_items mbind exc_bind].
  destruct (parse_dimension_scores_total rubric items []) as [res Hres].
  { eapply Forall_impl; [exact Hitems|]. intros kv (fields & ? & _). by eexists. }
  rewrite Hres. cbn [mbind exc_bind].
  apply parse_dimension_scores_spec in Hres as [_ ->]; [|done|done].
  rewrite app_nil_l.
  assert (exists q, calculate_overall
            ((fun kv => (kv.1, spec_dimension_score rubric kv.1 (fields_of kv.2)))
               <$> items) = Ok q) as [q ->].
  { unfold calculate_overall.
    match goal with
    | |- context [sum_weighted 0 ?l] =>
        destruct (sum_weighted_total l 0) as [s Hs]
    end.
    { apply Forall_fmap. eapply Forall_impl; [exact Hitems|].
      intros [k v] (fields & Hf & Hnum). cbn in Hf. subst v. exact Hnum. }
    rewrite Hs. destruct (_ <$> items); [by eexists|].
    destruct (Qlt_bool 0 _); by eexists. }
  cbn [mbind exc_bind].
  destruct (from_option id (PDict []) (dict_get "chain_of_thought" d));
    try discriminate Hcot.
  destruct (from_option id (PDict []) (dict_get "flags" d)); try discriminate Hflags.
  cbn. by eexists.
Qed.

Lemma parse_response_decoded `{env : EngineEnv} rubric response cid json_str data :
  extract_json response = Ok json_str ->
  json_loads (str_strip json_str) = Ok data ->
  _parse_response rubric response cid = parse_data rubric data response cid.
Proof. intros H1 H2. unfold _parse_response. rewrite H1. cbn. by rewrite H2. Qed.

(** The flags of a parsed result are the values the model reported, [False]
    where it reported none: no score is looked at. *)
Lemma parse_data_flags rubric d response cid r :
  parse_data rubric (PDict d) response cid = Ok r ->
  exists flag_fields,
    from_option id (PDict []) (dict_get "flags" d) = PDict flag_fields /\
    critical_error (flags r)
      = from_option id (PBool false) (dict_get "critical_error" flag_fields) /\
    compliance_issue (flags r)
      = from_option id (PBool false) (dict_get "compliance_issue" flag_fields) /\
    escalation_needed (flags r)
      = from_option id (PBool false) (dict_get "escalation_needed" flag_fields).
Proof.
  intros H. apply parse_data_inv in H
    as (ds_data & items & flags_data & _ & _ & _ & _ & Hf & H1 & H2 & H3 & _).
  cbn in Hf. injection Hf as <-.
  destruct (from_option id (PDict []) (dict_get "flags" d)) as [| | | | | |ff];
    try discriminate H1.
  exists ff. cbn in H1, H2, H3. split; [done|]. by simplify_eq.
Qed.

(** ** C1: the flag rule *)

(** C1 (a defect of the code, shown at the failing input).  The
    specification asks for a parsed result with an "accuracy" score below 3
    to carry critical_error = true and for one with a "compliance" score
    below 5 to carry compliance_issue = true.  On the model's answer with
    accuracy 2, compliance 4 and no flags, [_parse_response] returns both
    flags false, and so does [evaluate]: the engine has no pass that derives
    flags from scores. *)
Theorem parse_response_applies_no_flag_rule :
  exists r,
    _parse_response (env := sample_env (Ok answer_low_scores)) DEFAULT_RUBRIC
      answer_low_scores "TEST" = Ok r /\
    score <$> dict_get "accuracy" (dimension_scores r) = Some (PInt 2) /\
    score <$> dict_get "compliance" (dimension_scores r) = Some (PInt 4) /\
    critical_error (flags r) = PBool false /\
    compliance_issue (flags r) = PBool false /\
    flags (evaluate (env := sample_env (Ok answer_low_scores)) sample_config
             DEFAULT_RUBRIC (sample_conversation "TEST") true) = flags r.
Proof.
  eexists. split; [vm_compute; reflexivity|].
  repeat split; vm_compute; reflexivity.
Qed.

(** ** C2: failures of the parser *)




Section ParserFailures.
Context `{env : EngineEnv}.
Variable config : JudgeConfig.
Variable rubric : Rubric.

End ParserFailures.


(** ** C3: the overall score *)


Section OverallScore.
Context `{env : EngineEnv}.
Variable rubric : Rubric.

End OverallScore.


(** ** C4: where the weights come from *)

Lemma fmap_keys {A B} (g : string * A -> B) (l : list (string * A)) :
  ((fun kv => (kv.1, g kv)) <$> l).*1 = l.*1.
Proof. induction l as [|kv l IH]; cbn; [done|]. by rewrite IH. Qed.

Section DimensionScores.
Context `{env : EngineEnv}.
Variable rubric : Rubric.

(** C4.  For a response that decodes to an object and parses, every entry
    of [dimension_scores] yields one DimensionScore under the same key, in
    the same order; the entry is an object; the weight is the weight of the
    rubric's dimension of that key, and 0.1 when the rubric has none, whatever
    the entry itself says; score, reasoning and evidence are the entry's, and
    3, the empty string and the empty list where the entry has none. *)
Theorem dimension_score_from_rubric (response cid json_str : string)
    (d items : list (string * pyval)) (r : EvaluationResult)
    (dim_name : string) (dim_data : pyval) :
  extract_json response = Ok json_str ->
  json_loads (str_strip json_str) = Ok (PDict d) ->
  dict_get "dimension_scores" d = Some (PDict items) ->
  wf_dict items ->
  _parse_response rubric response cid = Ok r ->
  (dim_name, dim_data) ∈ items ->
  (dimension_scores r).*1 = items.*1 /\
  exists fields ds,
    dim_data = PDict fields /\
    dict_get dim_name (dimension_scores r) = Some ds /\
    weight ds = match dict_get dim_name (dimensions rubric) with
                | Some rd => dim_weight rd
                | None => 0.1%Q
                end /\
    score ds = from_option id (PInt 3) (dict_get "score" fields) /\
    reasoning ds = from_option id (PStr "") (dict_get "reasoning" fields) /\
    evidence ds = from_option id (PList []) (dict_get "evidence" fields).
Proof.
  intros Hx Hd Hi Hwf Hp Hin.
  rewrite (parse_response_decoded _ _ _ _ _ Hx Hd) in Hp.
  apply parse_data_inv in Hp as (ds_data & items' & ? & Hg & Hit & Hds & _).
  cbn in Hg. rewrite Hi in Hg. cbn in Hg. injection Hg as <-.
  cbn in Hit. injection Hit as <-.
  apply parse_dimension_scores_spec in Hds as [Hall Hds]; [|done|done].
  cbn in Hds. rewrite Hds. split.
  - apply fmap_keys.
  - apply (proj1 (Forall_forall _ _)) with (x := (dim_name, dim_data)) in Hall; [|done].
    destruct Hall as [fields Hf]. cbn in Hf. subst dim_data.
    exists fields, (spec_dimension_score rubric dim_name fields).
    split; [done|]. split; [|done].
    apply dict_get_elem_of.
    + unfold wf_dict. by rewrite fmap_keys.
    + apply list_elem_of_fmap. by exists (dim_name, PDict fields).
Qed.
End DimensionScores.

(** C4, witness: under the built-in rubric, "tone" gets the rubric's 0.20
    although the answer states 0.9, and the unknown "empathy", an empty
    object, gets 0.1 and the three defaults. *)
Lemma dimension_score_from_rubric_witness :
  (exists fields ds,
     PDict [("score", PInt 5); ("weight", PFloat 0.9)] = PDict fields /\
     dict_get "tone"
       (dimension_scores
          (parsed (_parse_response (env := sample_env (Ok "")) DEFAULT_RUBRIC
                     answer_tone_empathy "TEST"))) = Some ds /\
     weight ds = 0.20%Q /\
     score ds = from_option id (PInt 3) (dict_get "score" fields) /\
     reasoning ds = from_option id (PStr "") (dict_get "reasoning" fields) /\
     evidence ds = from_option id (PList []) (dict_get "evidence" fields)) /\
  (exists fields ds,
     PDict [] = PDict fields /\
     dict_get "empathy"
       (dimension_scores
          (parsed (_parse_response (env := sample_env (Ok "")) DEFAULT_RUBRIC
                     answer_tone_empathy "TEST"))) = Some ds /\
     weight ds = 0.1%Q /\
     score ds = from_option id (PInt 3) (dict_get "score" fields) /\
     reasoning ds = from_option id (PStr "") (dict_get "reasoning" fields) /\
     evidence ds = from_option id (PList []) (dict_get "evidence" fields)).
Proof.
  split.
  - refine (proj2 (dimension_score_from_rubric (env := sample_env (Ok "")) DEFAULT_RUBRIC
             answer_tone_empathy "TEST" answer_tone_empathy _ _ _ "tone" _
             eq_refl eq_refl eq_refl _ eq_refl _)).
    + apply (bool_decide_unpack _). vm_compute. exact I.
    + apply list_elem_of_here.
  - refine (proj2 (dimension_score_from_rubric (env := sample_env (Ok "")) DEFAULT_RUBRIC
             answer_tone_empathy "TEST" answer_tone_empathy _ _ _ "empathy" _
             eq_refl eq_refl eq_refl _ eq_refl _)).
    + apply (bool_decide_unpack _). vm_compute. exact I.
    + apply list_elem_of_further, list_elem_of_here.
Defined.

(** ** C5: the batch *)

Lemma sum_list_insert (f : task_state -> nat) (l : list task_state) (i : nat)
    (x y : task_state) :
  l !! i = Some x ->
  sum_list (f <$> <[i := y]> l) + f x = sum_list (f <$> l) + f y.
Proof.
  intros H. rewrite insert_take_drop by (by eapply lookup_lt_Some).
  rewrite <- (take_drop_middle l i x H) at 3.
  rewrite !fmap_app, !fmap_cons, !sum_list_with_app. cbn. lia.
Qed.

Lemma sum_list_replicate (f : task_state -> nat) (n : nat) (t : task_state) :
  sum_list (f <$> replicate n t) = n * f t.
Proof. induction n as [|n IH]; cbn; [done|]. rewrite IH. lia. Qed.



Lemma finished_all (l : list task_state) (rs : list EvaluationResult) :
  Forall2 (fun t r => t = Done r) l rs -> sum_list (finished <$> l) = length l.
Proof. induction 1 as [|t r l rs -> _ IH]; cbn; [done|]. by rewrite IH. Qed.

Section BatchProperties.
Context `{env : EngineEnv}.
Variable config : JudgeConfig.
Variable rubric : Rubric.
Variable conversations : list Conversation.
Variable include_few_shot : bool.
Variable has_progress_callback : bool.
Variable concurrency : Z.

Abbreviation do_event := (batch_do config rubric conversations include_few_shot
                        has_progress_callback).
Abbreviation run := (batch_run config rubric conversations include_few_shot
                   has_progress_callback).
Abbreviation invariant := (batch_inv config rubric conversations include_few_shot
                             concurrency).

Lemma batch_init_inv s0 :
  batch_init conversations concurrency = Ok s0 ->
  invariant s0 /\ batch_measure s0 = 2 * length conversations.
Proof.
  unfold batch_init. destruct (concurrency <? 0)%Z; [done|]. intros [= <-].
  unfold batch_inv, batch_measure, batch_in_flight, batch_finished. cbn.
  rewrite !sum_list_replicate, length_replicate. cbn. repeat split; try lia.
  intros idx r H. apply lookup_replicate in H as [? _]. done.
Qed.

Lemma batch_do_inv ev s s' :
  invariant s -> do_event ev s = Some s' ->
  invariant s' /\ S (batch_measure s') = batch_measure s.
Proof.
  intros (Hlen & Hdone & Hperm & Hcount) Hdo.
  unfold batch_inv, batch_measure, batch_in_flight, batch_finished in *.
  destruct ev as [idx|idx]; cbn in Hdo.
  - destruct (tasks s !! idx) as [[| |]|] eqn:Ht; try discriminate Hdo.
    destruct (0 <? permits s)%Z; [|done]. injection Hdo as <-. cbn.
    pose proof (sum_list_insert steps_left _ idx _ Running Ht) as H1.
    pose proof (sum_list_insert in_flight _ idx _ Running Ht) as H2.
    pose proof (sum_list_insert finished _ idx _ Running Ht) as H3.
    cbn in H1, H2, H3. rewrite length_insert. repeat split; try lia.
    intros j r Hj. destruct (decide (idx = j)) as [->|Hne].
    + rewrite list_lookup_insert_eq in Hj; [done|]. by eapply lookup_lt_Some.
    + rewrite list_lookup_insert_ne in Hj by done. by apply Hdone.
  - destruct (tasks s !! idx) as [[| |]|] eqn:Ht; try discriminate Hdo.
    destruct (conversations !! idx) as [conv|] eqn:Hc; [|done].
    injection Hdo as <-. cbn.
    set (d := Done (evaluate_with_semaphore config rubric include_few_shot conv idx)).
    pose proof (sum_list_insert steps_left _ idx _ d Ht) as H1.
    pose proof (sum_list_insert in_flight _ idx _ d Ht) as H2.
    pose proof (sum_list_insert finished _ idx _ d Ht) as H3.
    cbn in H1, H2, H3. rewrite length_insert. repeat split; try lia.
    intros j r Hj. destruct (decide (idx = j)) as [->|Hne].
    + rewrite list_lookup_insert_eq in Hj by (by eapply lookup_lt_Some).
      injection Hj as <-. by exists conv.
    + rewrite list_lookup_insert_ne in Hj by done. by apply Hdone.
Qed.

Lemma batch_run_inv evs : forall s s',
  invariant s -> run evs s = Some s' ->
  invariant s' /\ length evs + batch_measure s' = batch_measure s.
Proof.
  induction evs as [|ev evs IH]; intros s s' Hinv Hrun; cbn in Hrun.
  - injection Hrun as <-. by split.
  - destruct (do_event ev s) as [s1|] eqn:Hdo; [|done].
    destruct (batch_do_inv _ _ _ Hinv Hdo) as [Hinv1 Hm].
    destruct (IH _ _ Hinv1 Hrun) as [Hinv' Hm']. split; [done|]. cbn. lia.
Qed.


Lemma gather_results s results :
  invariant s -> gather s = Some results ->
  results = imap (fun idx conv =>
                    evaluate config rubric conv
                      (include_few_shot && bool_decide (idx = 0)))
                 conversations /\
  completed s = length conversations.
Proof.
  intros (Hlen & Hdone & Hperm & Hcount) Hg. unfold gather in Hg.
  apply mapM_Some in Hg. split.
  - apply list_eq. intros idx. rewrite list_lookup_imap.
    destruct (results !! idx) as [r|] eqn:Hr.
    + destruct (Forall2_lookup_r _ _ _ _ _ Hg Hr) as (t & Ht & Htr).
      destruct t as [| |r']; try discriminate Htr. injection Htr as ->.
      destruct (Hdone _ _ Ht) as (conv & -> & ->). done.
    + apply lookup_ge_None in Hr. apply Forall2_length in Hg.
      rewrite (proj2 (lookup_ge_None conversations idx)); [done|lia].
  - rewrite Hcount. unfold batch_finished. rewrite <- Hlen.
    eapply finished_all. eapply Forall2_impl; [exact Hg|].
    intros t r. by destruct t; intros [= ->].
Qed.



End BatchProperties.

(** The limit of C5: a semaphore created without a permit lets no task
    start, so the batch neither moves nor returns. *)
Lemma batch_stuck_without_permit :
  exists s0,
    batch_init [sample_conversation "a"] 0 = Ok s0 /\
    gather s0 = None /\
    forall ev,
      batch_do (env := sample_env (Ok "")) sample_config DEFAULT_RUBRIC
        [sample_conversation "a"] true true ev s0 = None.
Proof.
  eexists. split; [reflexivity|]. split; [reflexivity|].
  intros [[|idx]|[|idx]]; reflexivity.
Qed.


(** ** C6 and C7: the meta-evaluation *)

Section MetaEvaluationProperties.
Context `{stats : StatsEnv}.

(** C6.  With fewer than 10 pairs [calculate_metrics] returns the report
    whose overall correlation metrics are all zero with the number of pairs as
    sample size, with no dimension correlations, calibration_needed = true
    and the insufficient-data recommendation as the only one; the report is
    the same for every statistics backend (none is consulted) and for
    every list of pairs of that length. *)
Theorem calculate_metrics_insufficient_data (pairs : list score_pair) :
  length pairs < 10 ->
  calculate_metrics pairs
    = {| overall_correlation :=
           {| pearson_r := 0; spearman_rho := 0; kendall_tau := 0;
              mean_absolute_error := 0; root_mean_squared_error := 0;
              cohen_kappa := 0; sample_size := length pairs |};
         dimension_correlations := [];
         calibration_needed := true;
         recommendations :=
           ["Insufficient data for meta-evaluation. Need at least 10 human annotations."];
         last_calculated := utcnow |} /\
  forall (other : StatsEnv) (pairs' : list score_pair),
    length pairs' = length pairs -> @utcnow other = @utcnow stats ->
    @calculate_metrics other pairs' = @calculate_metrics stats pairs.
Proof.
  intros Hlt.
  assert (Hsmall : forall (st : StatsEnv) (ps : list score_pair),
            length ps < 10 ->
            @calculate_metrics st ps
              = {| overall_correlation := no_correlation (length ps);
                   dimension_correlations := [];
                   calibration_needed := true;
                   recommendations := [insufficient_message];
                   last_calculated := @utcnow st |}).
  { intros st ps Hps. unfold calculate_metrics.
    by rewrite (proj2 (Nat.ltb_lt _ _) Hps). }
  split; [by rewrite Hsmall|].
  intros other pairs' Hlen Hnow.
  rewrite (Hsmall other pairs') by lia. rewrite (Hsmall stats pairs) by lia.
  congruence.
Qed.



Lemma weak_dimensions_cons (dims : list (string * CorrelationMetrics)) :
  existsb (fun kv => Qlt_bool (pearson_r kv.2) 0.70) dims = true ->
  weak_dimensions dims <> [].
Proof.
  unfold weak_dimensions. induction dims as [|kv dims IH]; [done|].
  cbn [existsb]. intros H. rewrite filter_cons. case_decide; [done|].
  apply IH. destruct (Qlt_bool (pearson_r kv.2) 0.70); [done|exact H].
Qed.


Lemma Qle_bool_false_iff (x y : Q) : Qle_bool x y = false <-> (y < x)%Q.
Proof.
  rewrite <- Qlt_bool_iff. unfold Qlt_bool. by rewrite negb_true_iff.
Qed.


End MetaEvaluationProperties.

(** C6, witness: three pairs. *)
Lemma calculate_metrics_insufficient_data_witness :
  calculate_metrics (stats := sample_stats 0.9 0.5)
    [sample_pair 8 8; sample_pair 2 9; sample_pair 5 5]
  = {| overall_correlation :=
         {| pearson_r := 0; spearman_rho := 0; kendall_tau := 0;
            mean_absolute_error := 0; root_mean_squared_error := 0;
            cohen_kappa := 0; sample_size := 3 |};
       dimension_correlations := [];
       calibration_needed := true;
       recommendations :=
         ["Insufficient data for meta-evaluation. Need at least 10 human annotations."];
       last_calculated := 0 |}.
Proof.
  refine (proj1 (calculate_metrics_insufficient_data (stats := sample_stats 0.9 0.5)
                   [sample_pair 8 8; sample_pair 2 9; sample_pair 5 5] _)).
  cbn. lia.
Defined.


(** ** C8: the grammar enhancement *)


Lemma dict_get_set {A} (k : string) (v : A) (d : list (string * A)) :
  dict_get k (dict_set k v d) = Some v.
Proof.
  induction d as [|[k' v'] d IH]; cbn.
  - by rewrite String.eqb_refl.
  - destruct (String.eqb k k') eqn:E; cbn; [by rewrite String.eqb_refl|by rewrite E].
Qed.

Lemma dict_set_Forall {A} (P : string * A -> Prop) (k : string) (v : A)
    (d : list (string * A)) :
  P (k, v) -> Forall P d -> Forall P (dict_set k v d).
Proof.
  intros Hv. induction 1 as [|[k' v'] d Hx Hd IH]; cbn.
  - by repeat constructor.
  - destruct (String.eqb k k'); by constructor.
Qed.

Lemma dict_get_Forall {A} (P : A -> Prop) (k : string) (v : A) (d : list (string * A)) :
  Forall (fun kv => P kv.2) d -> dict_get k d = Some v -> P v.
Proof.
  induction 1 as [|[k' v'] d Hx _ IH]; [done|]. cbn [dict_get].
  destruct (String.eqb k k'); [|done]. by intros [= <-].
Qed.






Section Enhancement.
Context `{lt : LanguageToolEnv}.
Variable base_url_lt : string.


End Enhancement.


(** ** C9 and C10: the rubric loader *)

(** C9 (a defect of the code, shown at the failing input).  The
    specification asks the loader to offer [get_dimensions_for_category], with "compliance" at
    0.25 for the category "retoure" and "tone" at 0.30 for "beschwerde".  A
    [RubricLoader] has no attribute of that name, so the lookup raises
    AttributeError; and for a conversation of category "retoure" the engine
    scores "compliance" with the rubric's base weight 0.20. *)
Theorem rubric_loader_has_no_category_lookup :
  RubricLoader_getattr "get_dimensions_for_category"
    = Raise (AttributeError
               "'RubricLoader' object has no attribute 'get_dimensions_for_category'") /\
  category (sample_conversation "TEST") = "retoure" /\
  weight <$> dict_get "compliance"
    (dimension_scores
       (evaluate (env := sample_env (Ok answer_low_scores)) sample_config
          (load ∅ "default_rubric" ∅).1 (sample_conversation "TEST") true))
    = Some 0.20%Q.
Proof. repeat split; vm_compute; reflexivity. Qed.

(** A name that an earlier load found in the directory stays cached: with
    the file gone afterwards, [load] still returns the cached rubric. *)
Lemma load_cached_name_without_file :
  exists cache,
    load {["zero_weight" := Ok zero_weight_rubric]} "zero_weight" ∅
      = (zero_weight_rubric, cache) /\
    (∅ : configs_dir) !! "zero_weight" = None /\
    load ∅ "zero_weight" cache = (zero_weight_rubric, cache) /\
    zero_weight_rubric <> DEFAULT_RUBRIC.
Proof.
  eexists. split; [|split; [done|split]].
  - unfold load. rewrite lookup_empty. cbn. rewrite lookup_singleton_eq. reflexivity.
  - unfold load. by rewrite lookup_insert_eq.
  - discriminate.
Qed.




(* ================================================================= *)
(** * Further properties of the code *)

(** ** judge/engine.py: the semaphore and the progress callback *)

Section BatchSemaphore.
Context `{env : EngineEnv}.
Variable config : JudgeConfig.
Variable rubric : Rubric.
Variable conversations : list Conversation.
Variable include_few_shot : bool.
Variable has_progress_callback : bool.
Variable concurrency : Z.

Abbreviation event := (batch_do config rubric conversations include_few_shot
                         has_progress_callback).
Abbreviation runs := (batch_run config rubric conversations include_few_shot
                        has_progress_callback).

Abbreviation sem_inv := (semaphore_inv (length conversations) has_progress_callback).

Lemma semaphore_init s0 :
  batch_init conversations concurrency = Ok s0 -> sem_inv s0.
Proof.
  unfold batch_init. destruct (concurrency <? 0)%Z eqn:E; [done|].
  intros [= <-]. apply Z.ltb_ge in E. split; cbn; [done|].
  by destruct has_progress_callback.
Qed.

Lemma semaphore_step ev s s' :
  sem_inv s -> event ev s = Some s' -> sem_inv s'.
Proof.
  intros [Hp Hc] Hdo. destruct ev as [idx|idx]; cbn in Hdo.
  - destruct (tasks s !! idx) as [[| |]|]; try discriminate Hdo.
    destruct (0 <? permits s)%Z eqn:E; [|done]. injection Hdo as <-.
    apply Z.ltb_lt in E. split; cbn; [lia|done].
  - destruct (tasks s !! idx) as [[| |]|]; try discriminate Hdo.
    destruct (conversations !! idx); [|done]. injection Hdo as <-.
    split; cbn [permits progress_calls completed]; [lia|]. rewrite Hc.
    destruct has_progress_callback; [|done].
    unfold progress_upto. by rewrite seq_S, fmap_app.
Qed.

Lemma semaphore_run evs : forall s s',
  sem_inv s -> runs evs s = Some s' -> sem_inv s'.
Proof.
  induction evs as [|ev evs IH]; intros s s' Hinv Hrun; cbn in Hrun.
  - by injection Hrun as <-.
  - destruct (event ev s) as [s1|] eqn:Hdo; [|done].
    eapply IH; [|exact Hrun]. by eapply semaphore_step.
Qed.

Lemma in_flight_finished_le (l : list task_state) :
  sum_list (in_flight <$> l) + sum_list (finished <$> l) <= length l.
Proof. induction l as [|[| |r] l IH]; cbn; lia. Qed.

(** X1.  In every state that any interleaving of the batch's tasks can
    reach, the number of evaluations in flight is at most [concurrency]: it
    is [concurrency] minus the permits left, which never drop below zero; and
    the tasks in flight and the finished ones are distinct tasks. *)
Theorem batch_never_exceeds_concurrency (s0 : batch_state)
    (evs : list batch_event) (s : batch_state) :
  batch_init conversations concurrency = Ok s0 ->
  runs evs s0 = Some s ->
  (Z.of_nat (batch_in_flight s) <= concurrency)%Z /\
  (0 <= permits s)%Z /\
  (permits s = concurrency - Z.of_nat (batch_in_flight s))%Z /\
  batch_in_flight s + batch_finished s <= length conversations.
Proof.
  intros H0 Hrun.
  destruct (batch_init_inv config rubric _ include_few_shot _ _ H0) as [Hinv0 _].
  destruct (batch_run_inv _ _ _ _ _ _ _ _ _ Hinv0 Hrun) as [(Hlen & _ & Hperm & _) _].
  destruct (semaphore_run _ _ _ (semaphore_init _ H0) Hrun) as [Hp _].
  pose proof (in_flight_finished_le (tasks s)) as Hle.
  unfold batch_in_flight, batch_finished in *. repeat split; lia.
Qed.

(** X2.  In every state that any interleaving can reach, a progress
    callback that returns has been called once per finished evaluation, with
    the counts 1, 2, ... in this order and the number of conversations as
    total, whatever the order in which the tasks finished; without a
    callback nothing is recorded.  Once [gather] can return, the count has
    reached the number of conversations. *)
Theorem progress_callback_counts_up (s0 : batch_state)
    (evs : list batch_event) (s : batch_state) :
  batch_init conversations concurrency = Ok s0 ->
  runs evs s0 = Some s ->
  progress_calls s
  = (if has_progress_callback
     then (fun i => (S i, length conversations)) <$> seq 0 (completed s)
     else []) /\
  completed s = batch_finished s /\
  completed s <= length conversations /\
  (is_Some (gather s) -> completed s = length conversations).
Proof.
  intros H0 Hrun.
  destruct (batch_init_inv config rubric _ include_few_shot _ _ H0) as [Hinv0 _].
  destruct (batch_run_inv _ _ _ _ _ _ _ _ _ Hinv0 Hrun) as [Hinv _].
  destruct (semaphore_run _ _ _ (semaphore_init _ H0) Hrun) as [_ Hc].
  pose proof (in_flight_finished_le (tasks s)) as Hle.
  destruct Hinv as (Hlen & Hdone & Hperm & Hcount).
  split; [exact Hc|]. split; [done|]. split.
  - unfold batch_finished in Hcount. lia.
  - intros [results Hg].
    by destruct (gather_results config rubric conversations include_few_shot
                   concurrency _ _
                   (conj Hlen (conj Hdone (conj Hperm Hcount))) Hg).
Qed.
End BatchSemaphore.

(** X1, witness: three conversations under two permits, after tasks 1 and 2
    have taken them. *)
Lemma batch_never_exceeds_concurrency_witness :
  exists s,
    batch_run (env := sample_env (Ok answer_low_scores)) sample_config DEFAULT_RUBRIC
      [sample_conversation "a"; sample_conversation "b"; sample_conversation "c"]
      true true [Acquire 1; Acquire 2]
      {| tasks := [Waiting; Waiting; Waiting]; permits := 2; completed := 0;
         progress_calls := [] |} = Some s /\
    (Z.of_nat (batch_in_flight s) <= 2)%Z /\
    (0 <= permits s)%Z /\
    (permits s = 2 - Z.of_nat (batch_in_flight s))%Z /\
    batch_in_flight s + batch_finished s <= 3.
Proof.
  eexists. split; [vm_compute; reflexivity|].
  exact (batch_never_exceeds_concurrency (env := sample_env (Ok answer_low_scores))
           sample_config DEFAULT_RUBRIC
           [sample_conversation "a"; sample_conversation "b"; sample_conversation "c"]
           true true 2 _ [Acquire 1; Acquire 2] _ eq_refl eq_refl).
Defined.

(** X2, witness: the same batch run to the end, the tasks finishing in the
    order 1, 2, 0: the callback saw (1, 3), (2, 3), (3, 3). *)
Lemma progress_callback_counts_up_witness :
  exists s,
    batch_run (env := sample_env (Ok answer_low_scores)) sample_config DEFAULT_RUBRIC
      [sample_conversation "a"; sample_conversation "b"; sample_conversation "c"]
      true true [Acquire 1; Acquire 2; Finish 1; Acquire 0; Finish 2; Finish 0]
      {| tasks := [Waiting; Waiting; Waiting]; permits := 2; completed := 0;
         progress_calls := [] |} = Some s /\
    progress_calls s = [(1, 3); (2, 3); (3, 3)] /\
    completed s = 3.
Proof.
  eexists. split; [vm_compute; reflexivity|].
  destruct (progress_callback_counts_up (env := sample_env (Ok answer_low_scores))
              sample_config DEFAULT_RUBRIC
              [sample_conversation "a"; sample_conversation "b"; sample_conversation "c"]
              true true 2 _
              [Acquire 1; Acquire 2; Finish 1; Acquire 0; Finish 2; Finish 0] _
              eq_refl eq_refl) as (Hc & _ & _ & Hn).
  split; [exact Hc|]. apply Hn. by eexists.
Defined.

(** ** judge/engine.py: the range of the overall score *)





Section OverallRange.
Context `{env : EngineEnv}.
Variable config : JudgeConfig.
Variable rubric : Rubric.


End OverallRange.


(** ** judge/engine.py: JSON inside a Markdown fence *)

Lemma string_app_assoc (a b c : string) : (a +:+ b) +:+ c = a +:+ (b +:+ c).
Proof.
  induction a as [|x a IH]; [done|].
  change (String x a +:+ b) with (String x (a +:+ b)).
  change (String x (a +:+ b) +:+ c) with (String x ((a +:+ b) +:+ c)).
  by rewrite IH.
Qed.

Lemma string_app_nil_r (a : string) : a +:+ "" = a.
Proof.
  induction a as [|x a IH]; [done|].
  change (String x a +:+ "") with (String x (a +:+ "")). by rewrite IH.
Qed.

(** After a match the scan skips the rest of the separator. *)
Lemma split_go_skip sep t rest cur :
  split_go sep (t +:+ rest) (String.length t) cur = split_go sep rest 0 cur.
Proof.
  induction t as [|c t IH]; [done|].
  change (String c t +:+ rest) with (String c (t +:+ rest)). cbn. exact IH.
Qed.

Lemma prefix_app sep rest : String.prefix sep (sep +:+ rest) = true.
Proof.
  induction sep as [|c sep IH]; [by destruct rest|].
  change (String c sep +:+ rest) with (String c (sep +:+ rest)). cbn.
  by destruct (ascii_dec c c).
Qed.

(** Where the text starts with the separator, a piece ends. *)
Lemma split_go_match sep rest cur :
  sep <> EmptyString ->
  split_go sep (sep +:+ rest) 0 cur = cur :: split_go sep rest 0 EmptyString.
Proof.
  intros Hne. pose proof (prefix_app sep rest) as Hp.
  destruct sep as [|c sep]; [done|].
  change (String c sep +:+ rest) with (String c (sep +:+ rest)) in *.
  cbn [split_go]. rewrite Hp. f_equal.
  cbn [String.length]. rewrite Nat.sub_1_r. cbn [Nat.pred]. apply split_go_skip.
Qed.

(** Text without the first character of the separator goes to the current
    piece as it is. *)
Lemma split_go_lacking c0 sep pre s cur :
  str_contains (String c0 EmptyString) pre = false ->
  split_go (String c0 sep) (pre +:+ s) 0 cur
  = split_go (String c0 sep) s 0 (cur +:+ pre).
Proof.
  revert cur. induction pre as [|c pre IH]; intros cur H.
  - by rewrite string_app_nil_r.
  - change (String c pre +:+ s) with (String c (pre +:+ s)).
    cbn [str_contains String.prefix] in H.
    destruct (ascii_dec c0 c) as [->|Hne].
    { by destruct pre. }
    cbn [split_go String.prefix]. destruct (ascii_dec c0 c) as [|_]; [done|].
    rewrite IH by (by destruct pre).
    rewrite string_app_assoc. done.
Qed.

(** The current piece is the beginning of the first piece returned. *)
Lemma split_go_head sep s : forall k cur,
  exists x l, split_go sep s k cur = (cur +:+ x) :: l.
Proof.
  induction s as [|c s IH]; intros k cur; cbn [split_go].
  - exists EmptyString, []. by rewrite string_app_nil_r.
  - destruct k as [|k]; [|apply IH].
    destruct (String.prefix sep (String c s)).
    + exists EmptyString. eexists. by rewrite string_app_nil_r.
    + destruct (IH 0 (cur +:+ String c EmptyString)) as (x & l & ->).
      exists (String c x), l. by rewrite string_app_assoc.
Qed.

Lemma str_contains_app sep pre rest :
  str_contains sep (pre +:+ sep +:+ rest) = true.
Proof.
  induction pre as [|c pre IH].
  - change ("" +:+ sep +:+ rest) with (sep +:+ rest).
    pose proof (prefix_app sep rest) as Hp.
    destruct (sep +:+ rest); cbn [str_contains]; by rewrite Hp.
  - change (String c pre +:+ sep +:+ rest) with (String c (pre +:+ sep +:+ rest)).
    cbn [str_contains]. rewrite IH. apply orb_true_r.
Qed.

(** The first piece of a text that lacks the first character of the
    separator up to its end, or up to an occurrence of the separator. *)
Lemma split_go_first_piece c0 sep body x :
  str_contains (String c0 EmptyString) body = false ->
  x = EmptyString \/ (exists x', x = String c0 sep +:+ x') ->
  exists l, split_go (String c0 sep) (body +:+ x) 0 EmptyString = body :: l.
Proof.
  intros Hb Hx. rewrite split_go_lacking by done.
  change ("" +:+ body) with body. destruct Hx as [->|[x' ->]].
  - by exists [].
  - rewrite split_go_match by done. by eexists.
Qed.

Lemma prefix_cons a s1 b s2 :
  String.prefix (String a s1) (String b s2) = Ascii.eqb a b && String.prefix s1 s2.
Proof.
  cbn. destruct (ascii_dec a b) as [->|Hne].
  - by rewrite Ascii.eqb_refl.
  - apply Ascii.eqb_neq in Hne. by rewrite Hne.
Qed.

Lemma split_go_step sep c s cur :
  split_go sep (String c s) 0 cur
  = if String.prefix sep (String c s)
    then cur :: split_go sep s (String.length sep - 1) EmptyString
    else split_go sep s 0 (cur +:+ String c EmptyString).
Proof. reflexivity. Qed.

(** The piece after an opening fence with the word json: it begins with the
    body, and goes on, if at all, with the closing fence. *)
Lemma split_go_closing_fence body post :
  str_contains "`" body = false ->
  String.prefix "`" post = false ->
  exists x l,
    split_go "```json" (body +:+ "```" +:+ post) 0 EmptyString = (body +:+ x) :: l /\
    (x = EmptyString \/ exists x', x = "```" +:+ x').
Proof.
  intros Hb Hp. rewrite split_go_lacking by done.
  change ("" +:+ body) with body.
  change ("```" +:+ post) with (String "`" (String "`" (String "`" post))).
  rewrite split_go_step, !prefix_cons. cbn [Ascii.eqb Bool.eqb andb].
  destruct (String.prefix "json" post) eqn:Hj.
  { exists EmptyString. eexists. rewrite string_app_nil_r. split; [done|by left]. }
  assert (Hno : forall s, String.prefix (String "`" s) post = false).
  { intros s. destruct post as [|b post]; [done|].
    rewrite prefix_cons in Hp |- *.
    destruct (Ascii.eqb "`" b); [by destruct post|done]. }
  rewrite split_go_step, !prefix_cons, Hno. cbn [Ascii.eqb Bool.eqb andb].
  rewrite split_go_step, !prefix_cons, Hno. cbn [Ascii.eqb Bool.eqb andb].
  destruct (split_go_head "```json" post 0 (((body +:+ "`") +:+ "`") +:+ "`"))
    as (x & l & ->).
  exists ("```" +:+ x), l. split; [|right; by exists x].
  by rewrite !string_app_assoc.
Qed.

Lemma str_contains_nil_l s : str_contains "" s = true.
Proof. by destruct s. Qed.

Section FencedJson.
Context `{env : EngineEnv}.
Variable rubric : Rubric.

(** The parser reads the response only through the text it extracts, and
    keeps the response itself as the raw text. *)
Lemma parse_response_extracted (response response' json_str cid : string) :
  extract_json response = Ok json_str ->
  extract_json response' = Ok json_str ->
  _parse_response rubric response cid
  = exc_map (with_response response) (_parse_response rubric response' cid).
Proof.
  intros H1 H2. unfold _parse_response. rewrite H1, H2. cbn [mbind exc_bind].
  destruct (json_loads (str_strip json_str)) as [data|[]]; try done.
  unfold parse_data.
  repeat match goal with
         | |- context [mbind _ ?m] => destruct m; cbn [mbind exc_bind exc_map]; try done
         end.
Qed.

(** X4.  A response that wraps the JSON in a Markdown fence, with prose
    before and after, is parsed as the text inside the fence: for a text
    [body] and a lead-in [pre] without backticks, the text between
    [```json] and the closing [```] is what is extracted, whatever follows
    the closing fence as long as it does not begin with one more backtick;
    so is the text inside a plain [```] fence when [```json] occurs nowhere;
    a text without backticks is taken whole; and the result of the parser is
    that for [body] alone, but for the raw text it keeps. *)
Theorem fenced_json_is_extracted (pre body post cid : string) :
  str_contains "`" pre = false ->
  str_contains "`" body = false ->
  extract_json body = Ok body /\
  (String.prefix "`" post = false ->
   let fenced := pre +:+ "```json" +:+ body +:+ "```" +:+ post in
   extract_json fenced = Ok body /\
   _parse_response rubric fenced cid
   = exc_map (with_response fenced) (_parse_response rubric body cid)) /\
  (let fenced := pre +:+ "```" +:+ body +:+ "```" +:+ post in
   str_contains "```json" fenced = false ->
   extract_json fenced = Ok body /\
   _parse_response rubric fenced cid
   = exc_map (with_response fenced) (_parse_response rubric body cid)).
Proof.
  intros Hpre Hbody.
  assert (Hplain : extract_json body = Ok body).
  { unfold extract_json.
    assert (str_contains "```" body = false) as H3.
    { clear -Hbody. induction body as [|c b IH]; [done|].
      cbn [str_contains] in *. apply orb_false_iff in Hbody as [H1 H2].
      rewrite IH by done. rewrite orb_false_r.
      rewrite prefix_cons in H1 |- *. destruct (Ascii.eqb "`" c); [|done].
      by destruct b. }
    assert (str_contains "```json" body = false) as ->; [|by rewrite H3].
    clear -Hbody. induction body as [|c b IH]; [done|].
    cbn [str_contains] in *. apply orb_false_iff in Hbody as [H1 H2].
    rewrite IH by done. rewrite orb_false_r.
    rewrite prefix_cons in H1 |- *. destruct (Ascii.eqb "`" c); [|done].
    by destruct b. }
  split; [done|]. split.
  - intros Hpost fenced.
    assert (Hx : extract_json fenced = Ok body).
    { unfold extract_json, fenced. rewrite str_contains_app.
      unfold str_split. rewrite split_go_lacking by done.
      rewrite split_go_match by done.
      destruct (split_go_closing_fence body post Hbody Hpost) as (x & l & -> & Hx).
      cbn.
      destruct (split_go_first_piece "`" "``" body x Hbody Hx) as [l' ->]. done. }
    split; [done|]. by apply (parse_response_extracted _ _ body).
  - intros fenced Hno.
    assert (Hx : extract_json fenced = Ok body).
    { unfold extract_json. rewrite Hno. unfold fenced. rewrite str_contains_app.
      unfold str_split. rewrite split_go_lacking by done.
      rewrite split_go_match by done.
      destruct (split_go_first_piece "`" "``" body ("```" +:+ post) Hbody) as [l ->].
      { right. by eexists. }
      cbn.
      destruct (split_go_first_piece "`" "``" body "" Hbody) as [l' Hl']; [by left|].
      rewrite string_app_nil_r in Hl'. by rewrite Hl'. }
    split; [done|]. by apply (parse_response_extracted _ _ body).
Qed.
End FencedJson.

(** X4, witness: the answer that scores "efficiency" with 5, fenced and
    framed by a sentence on either side. *)
Lemma fenced_json_is_extracted_witness :
  extract_json ("Here is the evaluation: " +:+ "```json" +:+ answer_efficiency_five
                +:+ "```" +:+ " I hope this helps.")
  = Ok answer_efficiency_five /\
  _parse_response (env := sample_env (Ok "")) DEFAULT_RUBRIC
    ("Here is the evaluation: " +:+ "```json" +:+ answer_efficiency_five
     +:+ "```" +:+ " I hope this helps.") "TEST"
  = exc_map (with_response
               ("Here is the evaluation: " +:+ "```json" +:+ answer_efficiency_five
                +:+ "```" +:+ " I hope this helps."))
      (_parse_response (env := sample_env (Ok "")) DEFAULT_RUBRIC
         answer_efficiency_five "TEST").
Proof.
  destruct (fenced_json_is_extracted (env := sample_env (Ok "")) DEFAULT_RUBRIC
              "Here is the evaluation: " answer_efficiency_five " I hope this helps."
              "TEST" ltac:(vm_compute; reflexivity) ltac:(vm_compute; reflexivity))
    as (_ & H & _).
  exact (H ltac:(vm_compute; reflexivity)).
Defined.

(** ** judge/languagetool.py: what the enhancement touches *)

Lemma dict_set_keys {A} (k : string) (v v0 : A) (d : list (string * A)) :
  dict_get k d = Some v0 -> (dict_set k v d).*1 = d.*1.
Proof.
  induction d as [|[k' v'] d IH]; cbn; [done|].
  destruct (String.eqb_spec k k') as [->|Hne]; cbn; [done|].
  intros H. by rewrite IH.
Qed.

Lemma dict_get_set_ne {A} (k k' : string) (v : A) (d : list (string * A)) :
  k' <> k -> dict_get k' (dict_set k v d) = dict_get k' d.
Proof.
  intros Hne. induction d as [|[k1 v1] d IH]; cbn.
  - by rewrite (proj2 (String.eqb_neq _ _) Hne).
  - destruct (String.eqb_spec k k1) as [->|Hk]; cbn.
    + by rewrite (proj2 (String.eqb_neq _ _) Hne).
    + by rewrite IH.
Qed.

Section EnhancementFrame.
Context `{lt : LanguageToolEnv}.
Variable base_url_lt : string.

Lemma adjust_language_quality_frame (result : EvaluationResult)
    (error_count : nat) (error_rate : Q) (errs : error_lists) :
  let r := (adjust_language_quality result error_count error_rate errs).1 in
  same_outside_scores r result /\
  (dimension_scores r).*1 = (dimension_scores result).*1 /\
  (forall k, k <> "language_quality" ->
     dict_get k (dimension_scores r) = dict_get k (dimension_scores result)) /\
  weight <$> dict_get "language_quality" (dimension_scores r)
  = weight <$> dict_get "language_quality" (dimension_scores result) /\
  (dict_get "language_quality" (dimension_scores result) = None -> r = result).
Proof.
  cbn zeta. unfold adjust_language_quality, same_outside_scores.
  destruct (dict_get "language_quality" (dimension_scores result))
    as [original_dim|] eqn:Hlq; [|cbn [fst]; rewrite ?Hlq; by repeat split].
  destruct (py_add_num (score original_dim) (adjustment_for error_rate)) as [moved|e1];
    cbn [mbind exc_bind fst]; [|rewrite ?Hlq; by repeat split].
  destruct (py_add_list (evidence original_dim) _) as [ev|e2];
    cbn [mbind exc_bind fst]; [|rewrite ?Hlq; by repeat split].
  set (new_dim := {| score := clamp_score moved |}).
  assert (Hkeys : (dict_set "language_quality" new_dim (dimension_scores result)).*1
                  = (dimension_scores result).*1) by (by eapply dict_set_keys).
  assert (Hother : forall k, k <> "language_quality" ->
            dict_get k (dict_set "language_quality" new_dim (dimension_scores result))
            = dict_get k (dimension_scores result))
    by (intros k Hk; by apply dict_get_set_ne).
  assert (Hw : weight <$> dict_get "language_quality"
                 (dict_set "language_quality" new_dim (dimension_scores result))
               = Some (weight original_dim)) by (by rewrite dict_get_set).
  cbn [dimension_scores with_dimensions].
  destruct (Qlt_bool 0 _); [destruct (sum_weighted 0 _)|]; cbn; by repeat split.
Qed.

(** X5.  Whatever LanguageTool answers, and whether or not an exception
    escapes, [enhance_evaluation] leaves the result as it was in everything
    but the overall score and the entry "language_quality" of the dimension
    scores: identifier, chain of thought, summary, suggestions, flags, model
    name, rubric version, processing time and raw text are unchanged; the
    dimension scores keep their keys and their order; every other dimension
    keeps its entry; and the weight of "language_quality" stays.  A result
    without that dimension comes back unchanged. *)
Theorem enhance_evaluation_frame (result : EvaluationResult) (chatbot_text : string) :
  let r := (enhance_evaluation base_url_lt result chatbot_text).1 in
  same_outside_scores r result /\
  (dimension_scores r).*1 = (dimension_scores result).*1 /\
  (forall k, k <> "language_quality" ->
     dict_get k (dimension_scores r) = dict_get k (dimension_scores result)) /\
  weight <$> dict_get "language_quality" (dimension_scores r)
  = weight <$> dict_get "language_quality" (dimension_scores result) /\
  (dict_get "language_quality" (dimension_scores result) = None -> r = result).
Proof.
  cbn zeta. unfold enhance_evaluation.
  destruct (str_strip chatbot_text); [by unfold same_outside_scores|].
  match goal with
  | |- context [match ?c with Ok _ => _ | Raise _ => _ end] => destruct c as [[[n q] errs]|e]
  end.
  - apply adjust_language_quality_frame.
  - by unfold same_outside_scores.
Qed.
End EnhancementFrame.

(** ** judge/languagetool.py: the adjusted score *)




Lemma dict_set_nonempty {A} (k : string) (v : A) (d : list (string * A)) :
  dict_set k v d <> [].
Proof. destruct d as [|[k' v'] d]; cbn; [done|]. by destruct (String.eqb k k'). Qed.

Lemma total_weight_dict_set (k : string) (v v0 : DimensionScore)
    (d : list (string * DimensionScore)) :
  dict_get k d = Some v0 -> weight v = weight v0 ->
  total_weight (dict_set k v d) = total_weight d.
Proof.
  unfold total_weight. generalize 0%Q.
  induction d as [|[k' v'] d IH]; intros a Hget Hw; cbn in *; [done|].
  destruct (String.eqb k k'); cbn.
  - injection Hget as ->. by rewrite Hw.
  - by apply IH.
Qed.

Section EnhancementScore.
Context `{lt : LanguageToolEnv}.
Variable base_url_lt : string.

Lemma enhance_evaluation_without_dimension (result : EvaluationResult)
    (chatbot_text : string) :
  dict_get "language_quality" (dimension_scores result) = None ->
  (enhance_evaluation base_url_lt result chatbot_text).1 = result.
Proof.
  intros Hlq. unfold enhance_evaluation.
  destruct (str_strip chatbot_text); [done|].
  match goal with
  | |- context [match ?c with Ok _ => _ | Raise _ => _ end] =>
      destruct c as [[[n rate] errs]|e]; [|done]
  end.
  unfold adjust_language_quality. by rewrite Hlq.
Qed.

(** What a call that returns without an exception has done to a result
    with a language_quality dimension. *)
Lemma enhance_evaluation_returned (result r : EvaluationResult)
    (chatbot_text : string) (original_dim : DimensionScore) :
  whitespace_only chatbot_text = false ->
  dict_get "language_quality" (dimension_scores result) = Some original_dim ->
  enhance_evaluation base_url_lt result chatbot_text = (r, None) ->
  exists error_rate moved new_dim,
    py_add_num (score original_dim) (adjustment_for error_rate) = Ok moved /\
    score new_dim = clamp_score moved /\
    weight new_dim = weight original_dim /\
    dimension_scores r
    = dict_set "language_quality" new_dim (dimension_scores result) /\
    ((Qlt_bool 0 (total_weight (dimension_scores r)) = true /\
      exists s, sum_weighted 0 (dimension_scores r) = Ok s /\
                overall_score r = (s / total_weight (dimension_scores r))%Q) \/
     (Qlt_bool 0 (total_weight (dimension_scores r)) = false /\
      overall_score r = overall_score result)).
Proof.
  intros Hws Hlq. unfold enhance_evaluation.
  destruct (str_strip chatbot_text) eqn:Hs.
  { apply str_strip_empty in Hs. congruence. }
  match goal with
  | |- context [match ?c with Ok _ => _ | Raise _ => _ end] =>
      destruct c as [[[n rate] errs]|e]; [|done]
  end.
  unfold adjust_language_quality. rewrite Hlq.
  destruct (py_add_num (score original_dim) (adjustment_for rate)) as [moved|e1]
    eqn:Hmoved; cbn [mbind exc_bind]; [|done].
  destruct (py_add_list (evidence original_dim) _) as [ev|e2];
    cbn [mbind exc_bind]; [|done].
  set (new_dim := {| score := clamp_score moved |}).
  cbn [dimension_scores with_dimensions].
  destruct (Qlt_bool 0 _) eqn:Htw.
  - destruct (sum_weighted 0 _) as [total|e3] eqn:Hsum; [|done].
    intros [= <-]. exists rate, moved, new_dim.
    cbn [dimension_scores overall_score with_dimensions with_overall].
    do 4 (split; [done|]). left. split; [done|]. by exists total.
  - intros [= <-]. exists rate, moved, new_dim.
    cbn [dimension_scores overall_score with_dimensions with_overall].
    do 4 (split; [done|]). by right.
Qed.


(** X7.  Enhancement keeps the overall score in step with the engine's
    rule: if the overall score of the result is what the engine computes
    from its dimension scores (the weighted average, or 0.5 when the total
    weight is not positive), then so is the overall score of the result that
    [enhance_evaluation] returns. *)
Theorem enhance_evaluation_keeps_overall_consistent (result r : EvaluationResult)
    (chatbot_text : string) :
  overall_consistent result ->
  enhance_evaluation base_url_lt result chatbot_text = (r, None) ->
  overall_consistent r.
Proof.
  intros Hcons Hr.
  destruct (whitespace_only chatbot_text) eqn:Hws.
  { apply str_strip_empty in Hws. unfold enhance_evaluation in Hr.
    rewrite Hws in Hr. by injection Hr as <-. }
  destruct (dict_get "language_quality" (dimension_scores result))
    as [original_dim|] eqn:Hlq.
  - destruct (enhance_evaluation_returned _ _ _ _ Hws Hlq Hr)
      as (rate & moved & new_dim & _ & _ & Hw & Hds & Hov).
    unfold overall_consistent, calculate_overall.
    destruct (dimension_scores r) as [|kv ds] eqn:Hr_ds.
    { symmetry in Hds. by apply dict_set_nonempty in Hds. }
    destruct Hov as [[Htw (s & Hs & Ho)]|[Htw Ho]].
    + rewrite Htw, Hs. cbn. eexists. split; [done|]. by rewrite Ho.
    + rewrite Htw. exists 0.5%Q. split; [done|]. rewrite Ho.
      destruct Hcons as (q & Hq & Hqo). rewrite <- Hqo.
      unfold calculate_overall in Hq.
      rewrite <- (total_weight_dict_set "language_quality" new_dim original_dim) in Hq
        by done.
      rewrite <- Hds, Htw in Hq.
      destruct (dimension_scores result); [done|]. by injection Hq as <-.
  - pose proof (enhance_evaluation_without_dimension result chatbot_text Hlq) as Hsame.
    rewrite Hr in Hsame. cbn in Hsame. by rewrite Hsame.
Qed.
End EnhancementScore.


(** X7, witness: the same result and text; the overall score 0.8 of the
    single dimension with score 4.0 becomes that of the score 2.0. *)
Lemma enhance_evaluation_keeps_overall_consistent_witness :
  overall_consistent
    (enhance_evaluation (lt := one_issue_languagetool) "http://localhost:8081/v2"
       mock_result "Dies ist ein Tset.").1 /\
  (overall_score
     (enhance_evaluation (lt := one_issue_languagetool) "http://localhost:8081/v2"
        mock_result "Dies ist ein Tset.").1 == 0.4)%Q.
Proof.
  split; [|by vm_compute].
  apply (enhance_evaluation_keeps_overall_consistent (lt := one_issue_languagetool)
           "http://localhost:8081/v2" mock_result _ "Dies ist ein Tset.").
  - eexists. split; [vm_compute; reflexivity|by vm_compute].
  - vm_compute; reflexivity.
Defined.

(** ** backend/app/services/evaluation_service.py: the chatbot's text *)

Lemma whitespace_only_app (a b : string) :
  whitespace_only (a +:+ b) = whitespace_only a && whitespace_only b.
Proof.
  unfold whitespace_only. induction a as [|c a IH]; [done|].
  change (String c a +:+ b) with (String c (a +:+ b)). cbn.
  rewrite IH. by rewrite andb_assoc.
Qed.

Lemma whitespace_only_join (sep : string) (l : list string) :
  whitespace_only sep = true ->
  whitespace_only (str_join sep l) = forallb whitespace_only l.
Proof.
  intros Hsep. induction l as [|x l IH]; [done|].
  destruct l as [|y l]; [cbn; by rewrite andb_true_r|].
  change (str_join sep (x :: y :: l)) with (x +:+ sep +:+ str_join sep (y :: l)).
  rewrite !whitespace_only_app, Hsep, IH. done.
Qed.

Lemma join_items_strings (l : list string) : forall i,
  join_items i (PStr <$> l) = Ok l.
Proof. induction l as [|x l IH]; intros i; cbn; [done|]. by rewrite IH. Qed.

Lemma chatbot_texts_spec (messages : list pyval) (rcs : list (string * string)) :
  Forall2 (fun msg rc => message_fields msg rc.1 rc.2) messages rcs ->
  forall acc,
    chatbot_texts messages acc
    = Ok (acc ++ (PStr <$> (snd <$> filter (fun rc => spoken_by_chatbot rc.1 = true) rcs))).
Proof.
  induction 1 as [|msg [role content] messages rcs (d & -> & Hr & Hc) _ IH]; intros acc.
  - cbn. by rewrite app_nil_r.
  - cbn [chatbot_texts py_get mbind exc_bind]. cbn in Hr, Hc. rewrite Hr.
    cbn [py_lower mbind exc_bind]. rewrite filter_cons. cbn [fst].
    case_decide as Hs; unfold spoken_by_chatbot in Hs.
    + rewrite Hs. cbn [py_get mbind exc_bind]. rewrite Hc.
      rewrite IH. cbn. by rewrite <- app_assoc.
    + apply not_true_is_false in Hs. rewrite Hs. apply IH.
Qed.

Section ChatbotText.
Context `{lt : LanguageToolEnv}.

(** X8.  For messages that are objects with strings for role and content:
    [_extract_chatbot_text] returns the contents of the messages whose role
    is, in any letter case, chatbot, assistant or agent, in their order,
    joined by a blank line; this text is blank exactly when every such
    content is blank (so also when there is no such message); and then the
    enhancement step of [evaluate_conversation] leaves the result as the
    judge returned it, without asking LanguageTool. *)
Theorem blank_chatbot_text_skips_enhancement (messages : list pyval)
    (rcs : list (string * string)) :
  Forall2 (fun msg rc => message_fields msg rc.1 rc.2) messages rcs ->
  let texts := snd <$> filter (fun rc => spoken_by_chatbot rc.1 = true) rcs in
  _extract_chatbot_text messages = Ok (str_join (nl +:+ nl) texts) /\
  whitespace_only (str_join (nl +:+ nl) texts) = forallb whitespace_only texts /\
  (forallb whitespace_only texts = true ->
   forall LANGUAGETOOL_URL enhance_with_languagetool LANGUAGETOOL_ENABLED result,
     languagetool_step LANGUAGETOOL_URL enhance_with_languagetool
       LANGUAGETOOL_ENABLED messages result = result).
Proof.
  intros Hm texts.
  assert (Hx : _extract_chatbot_text messages = Ok (str_join (nl +:+ nl) texts)).
  { unfold _extract_chatbot_text. rewrite (chatbot_texts_spec _ _ Hm).
    cbn [mbind exc_bind app]. unfold py_join. by rewrite join_items_strings. }
  assert (Hb : whitespace_only (str_join (nl +:+ nl) texts)
               = forallb whitespace_only texts)
    by (by apply whitespace_only_join).
  split; [done|]. split; [done|].
  intros Hblank url enh enabled result. unfold languagetool_step.
  destruct (enh && enabled); [|done]. rewrite Hx.
  rewrite <- Hb in Hblank. apply str_strip_empty in Hblank.
  unfold enhance_evaluation. by rewrite Hblank.
Qed.
End ChatbotText.

(** X8, witness: a customer's question and an agent's reply that is a line
    break only. *)
Lemma blank_chatbot_text_skips_enhancement_witness :
  _extract_chatbot_text
    [PDict [("role", PStr "customer"); ("content", PStr "Wo ist mein Paket?")];
     PDict [("role", PStr "Agent"); ("content", PStr nl)]] = Ok (str_join (nl +:+ nl) [nl]) /\
  languagetool_step (lt := one_issue_languagetool) "http://localhost:8081/v2/" true true
    [PDict [("role", PStr "customer"); ("content", PStr "Wo ist mein Paket?")];
     PDict [("role", PStr "Agent"); ("content", PStr nl)]] mock_result = mock_result.
Proof.
  destruct (blank_chatbot_text_skips_enhancement (lt := one_issue_languagetool)
              [PDict [("role", PStr "customer"); ("content", PStr "Wo ist mein Paket?")];
               PDict [("role", PStr "Agent"); ("content", PStr nl)]]
              [("customer", "Wo ist mein Paket?"); ("Agent", nl)])
    as (H1 & _ & H2).
  - repeat constructor; eexists; by repeat split.
  - split; [exact H1|]. apply H2. reflexivity.
Defined.

(** ** backend/app/services/meta_evaluation_service.py: the correlations
    per dimension *)

Lemma dict_set_wf {A} (k : string) (v : A) (d : list (string * A)) :
  wf_dict d -> wf_dict (dict_set k v d).
Proof.
  unfold wf_dict. intros Hnd.
  destruct (dict_get k d) as [v0|] eqn:E.
  - by rewrite (dict_set_keys k v v0 d E).
  - rewrite dict_set_fresh by done. rewrite fmap_app. cbn.
    apply NoDup_app. split; [done|]. split; [|apply NoDup_singleton].
    intros x Hx Hk. apply list_elem_of_singleton in Hk as ->.
    by apply dict_get_None in E.
Qed.

Lemma dict_mem_elem_of {A} (k : string) (d : list (string * A)) :
  dict_mem k d = bool_decide (k ∈ d.*1).
Proof.
  unfold dict_mem. destruct (dict_get k d) as [v|] eqn:E.
  - symmetry. apply bool_decide_eq_true. apply dec_stable. intros Hn.
    apply dict_get_None in Hn. congruence.
  - symmetry. apply bool_decide_eq_false. by apply dict_get_None.
Qed.

Lemma collect_keys_spec (judge_dims human_dims : list (string * option Q)) :
  forall keys acc, NoDup keys ->
  forall k,
    dict_get k (collect_keys keys judge_dims human_dims acc)
    = if bool_decide (k ∈ keys)
      then Some (add_sample
                   (default {| judge_samples := []; human_samples := [] |}
                            (dict_get k acc))
                   (match mjoin (dict_get k judge_dims), mjoin (dict_get k human_dims) with
                    | Some j, Some h => Some (j, h)
                    | _, _ => None
                    end))
      else dict_get k acc.
Proof.
  induction keys as [|dim_key rest IH]; intros acc Hnd k; [done|].
  apply NoDup_cons in Hnd as [Hfresh Hnd]. cbn [collect_keys].
  set (acc1 := if dict_mem dim_key acc then acc else _).
  match goal with
  | |- context [collect_keys rest _ _ ?a] => set (acc2 := a)
  end.
  rewrite (IH acc2 Hnd k).
  assert (H1 : dict_get dim_key acc1
               = Some (default {| judge_samples := []; human_samples := [] |}
                               (dict_get dim_key acc))).
  { subst acc1. unfold dict_mem.
    destruct (dict_get dim_key acc) as [sc|] eqn:E; [done|]. by rewrite dict_get_set. }
  assert (H1' : forall k', k' <> dim_key -> dict_get k' acc1 = dict_get k' acc).
  { intros k' Hk'. subst acc1. destruct (dict_mem dim_key acc); [done|].
    by apply dict_get_set_ne. }
  destruct (decide (k = dim_key)) as [->|Hne].
  - rewrite (bool_decide_eq_false_2 _ Hfresh).
    rewrite bool_decide_eq_true_2 by apply list_elem_of_here.
    subst acc2. rewrite H1.
    destruct (mjoin (dict_get dim_key judge_dims)) as [j|]; [|done].
    destruct (mjoin (dict_get dim_key human_dims)) as [h|]; [|done].
    by rewrite dict_get_set.
  - assert (H2 : dict_get k acc2 = dict_get k acc).
    { subst acc2. rewrite H1.
      destruct (mjoin (dict_get dim_key judge_dims)) as [j|]; [|by apply H1'].
      destruct (mjoin (dict_get dim_key human_dims)) as [h|]; [|by apply H1'].
      rewrite dict_get_set_ne by done. by apply H1'. }
    rewrite H2. destruct (decide (k ∈ rest)) as [Hin|Hnin].
    + rewrite !bool_decide_eq_true_2; [done|by apply list_elem_of_further|done].
    + rewrite !bool_decide_eq_false_2; [done| |done].
      rewrite not_elem_of_cons. by split.
Qed.

Lemma collect_keys_wf judge_dims human_dims : forall keys acc,
  wf_dict acc -> wf_dict (collect_keys keys judge_dims human_dims acc).
Proof.
  induction keys as [|dim_key rest IH]; intros acc Hwf; [done|].
  cbn [collect_keys]. apply IH.
  set (acc1 := if dict_mem dim_key acc then acc else _).
  assert (wf_dict acc1) as Hwf1.
  { subst acc1. destruct (dict_mem dim_key acc); [done|by apply dict_set_wf]. }
  destruct (mjoin (dict_get dim_key judge_dims)); [|done].
  destruct (mjoin (dict_get dim_key human_dims)); [|done].
  destruct (dict_get dim_key acc1); [|done]. by apply dict_set_wf.
Qed.

Lemma paired_scores_unlisted (k : string) (pairs : list score_pair) :
  existsb (fun pair => dict_mem k (judge_dimensions pair)) pairs = false ->
  paired_scores k pairs = [].
Proof.
  unfold paired_scores. induction pairs as [|p pairs IH]; [done|].
  cbn [existsb omap list_omap]. intros H. apply orb_false_iff in H as [Hp H].
  rewrite (IH H). unfold paired_score, dict_mem in *.
  by destruct (dict_get k (judge_dimensions p)).
Qed.

Lemma collect_dimension_scores_snoc (pairs : list score_pair) (pair : score_pair) :
  collect_dimension_scores (pairs ++ [pair])
  = collect_keys ((judge_dimensions pair).*1) (judge_dimensions pair)
      (human_dimensions pair) (collect_dimension_scores pairs).
Proof. unfold collect_dimension_scores. by rewrite fold_left_app. Qed.

Lemma collect_dimension_scores_wf (pairs : list score_pair) :
  wf_dict (collect_dimension_scores pairs).
Proof.
  induction pairs as [|p pairs IH] using rev_ind.
  - apply NoDup_nil_2.
  - rewrite collect_dimension_scores_snoc. by apply collect_keys_wf.
Qed.

Lemma collect_dimension_scores_spec (pairs : list score_pair) :
  Forall (fun pair => wf_dict (judge_dimensions pair)) pairs ->
  forall k, dict_get k (collect_dimension_scores pairs) = collected_samples k pairs.
Proof.
  induction pairs as [|p pairs IH] using rev_ind; intros Hwf k; [done|].
  apply Forall_app in Hwf as [Hwf Hp]. apply (proj1 (Forall_singleton _ _)) in Hp.
  rewrite collect_dimension_scores_snoc, collect_keys_spec by exact Hp.
  rewrite <- dict_mem_elem_of, (IH Hwf k). unfold collected_samples.
  rewrite existsb_app. cbn [existsb]. rewrite orb_false_r.
  unfold paired_scores. rewrite omap_app. cbn [omap list_omap].
  fold (paired_scores k pairs).
  change (match mjoin (dict_get k (judge_dimensions p)) with
          | Some j => match mjoin (dict_get k (human_dimensions p)) with
                      | Some h => Some (j, h)
                      | None => None
                      end
          | None => None
          end) with (paired_score k p).
  destruct (dict_mem k (judge_dimensions p)) eqn:Hmem.
  - rewrite orb_true_r.
    destruct (existsb (fun pair => dict_mem k (judge_dimensions pair)) pairs) eqn:Hex.
    + cbn [default from_option id]. destruct (paired_score k p) as [[j h]|]; cbn.
      * by rewrite !fmap_app.
      * by rewrite app_nil_r.
    + rewrite (paired_scores_unlisted _ _ Hex). cbn [default from_option id].
      by destruct (paired_score k p) as [[j h]|].
  - rewrite orb_false_r.
    assert (paired_score k p = None) as ->.
    { unfold paired_score, dict_mem in *.
      by destruct (dict_get k (judge_dimensions p)). }
    cbn. by rewrite app_nil_r.
Qed.

Lemma paired_scores_length (k : string) (pairs : list score_pair) :
  length (paired_scores k pairs) <= length pairs.
Proof.
  unfold paired_scores. induction pairs as [|p pairs IH]; [done|].
  cbn [omap list_omap]. destruct (paired_score k p); cbn; lia.
Qed.

Section DimensionCorrelations.
Context `{stats : StatsEnv}.

Lemma correlation_metrics_sample_size (judge_scores human_scores : list Q) :
  sample_size (_calculate_correlation_metrics judge_scores human_scores)
  = length judge_scores.
Proof. unfold _calculate_correlation_metrics. by destruct (_ <? 2). Qed.

Lemma dimension_report_fold (l : list (string * dimension_samples)) :
  forall acc, wf_dict l ->
  forall k,
    dict_get k
      (fold_left (fun acc kv =>
                    if 5 <=? length (judge_samples kv.2)
                    then dict_set kv.1
                           (_calculate_correlation_metrics (judge_samples kv.2)
                              (human_samples kv.2)) acc
                    else acc) l acc)
    = match dict_get k l with
      | Some sc =>
          if 5 <=? length (judge_samples sc)
          then Some (_calculate_correlation_metrics (judge_samples sc) (human_samples sc))
          else dict_get k acc
      | None => dict_get k acc
      end.
Proof.
  unfold wf_dict. induction l as [|[k' sc'] l IH]; intros acc Hnd k; [done|].
  cbn in Hnd. apply NoDup_cons in Hnd as [Hfresh Hnd].
  cbn [fold_left fst snd dict_get]. rewrite (IH _ Hnd k).
  destruct (String.eqb_spec k k') as [->|Hne].
  - rewrite (proj2 (dict_get_None k' l) Hfresh).
    destruct (5 <=? length (judge_samples sc')); [|done]. apply dict_get_set.
  - destruct (5 <=? length (judge_samples sc')); [|done].
    by rewrite dict_get_set_ne.
Qed.

(** X9.  For pairs whose judge dimensions are a dictionary (no key twice):
    the report holds an entry for a dimension exactly when at least five
    pairs carry a score for it on both sides, the judge's and the
    annotator's; the entry is then computed from exactly those pairs' scores,
    in the order of the pairs, the two arrays being of the same length; so
    the sample size of an entry is at least five and at most the number of
    pairs. *)
Theorem dimension_correlations_from_paired_scores (pairs : list score_pair)
    (dim_key : string) :
  Forall (fun pair => wf_dict (judge_dimensions pair)) pairs ->
  dict_get dim_key (_calculate_dimension_correlations pairs)
  = (if 5 <=? length (paired_scores dim_key pairs)
     then Some (_calculate_correlation_metrics (paired_scores dim_key pairs).*1
                  (paired_scores dim_key pairs).*2)
     else None) /\
  length (paired_scores dim_key pairs).*1 = length (paired_scores dim_key pairs).*2 /\
  forall metrics,
    dict_get dim_key (_calculate_dimension_correlations pairs) = Some metrics ->
    5 <= sample_size metrics <= length pairs.
Proof.
  intros Hwf.
  assert (Hget : dict_get dim_key (_calculate_dimension_correlations pairs)
                 = (if 5 <=? length (paired_scores dim_key pairs)
                    then Some (_calculate_correlation_metrics
                                 (paired_scores dim_key pairs).*1
                                 (paired_scores dim_key pairs).*2)
                    else None)).
  { unfold _calculate_dimension_correlations.
    rewrite dimension_report_fold by apply collect_dimension_scores_wf.
    rewrite (collect_dimension_scores_spec _ Hwf). unfold collected_samples.
    destruct (existsb _ pairs) eqn:Hex.
    - cbn [judge_samples human_samples]. rewrite length_fmap.
      by destruct (5 <=? _).
    - by rewrite (paired_scores_unlisted _ _ Hex). }
  split; [exact Hget|]. split; [by rewrite !length_fmap|].
  intros metrics Hm. rewrite Hget in Hm.
  destruct (5 <=? length (paired_scores dim_key pairs)) eqn:H5; [|done].
  injection Hm as <-. rewrite correlation_metrics_sample_size, length_fmap.
  apply Nat.leb_le in H5. split; [done|]. apply paired_scores_length.
Qed.
End DimensionCorrelations.

(** X9, witness: five pairs that score "accuracy" on both sides give an
    entry for it, computed from the five scores of either side; four do
    not. *)
Lemma dimension_correlations_from_paired_scores_witness :
  dict_get "accuracy"
    (_calculate_dimension_correlations (stats := sample_stats 0.9 0.5)
       (replicate 5 (sample_pair 8 9)))
  = Some (_calculate_correlation_metrics (stats := sample_stats 0.9 0.5)
            (replicate 5 8%Q) (replicate 5 9%Q)) /\
  dict_get "accuracy"
    (_calculate_dimension_correlations (stats := sample_stats 0.9 0.5)
       (replicate 4 (sample_pair 8 9))) = None.
Proof.
  split.
  - refine (eq_trans (proj1 (dimension_correlations_from_paired_scores
                               (stats := sample_stats 0.9 0.5)
                               (replicate 5 (sample_pair 8 9)) "accuracy" _)) _).
    + apply (bool_decide_unpack _). vm_compute. exact I.
    + reflexivity.
  - refine (eq_trans (proj1 (dimension_correlations_from_paired_scores
                               (stats := sample_stats 0.9 0.5)
                               (replicate 4 (sample_pair 8 9)) "accuracy" _)) _).
    + apply (bool_decide_unpack _). vm_compute. exact I.
    + reflexivity.
Defined.

(** ** backend/app/services/meta_evaluation_service.py: the classes of
    Cohen's kappa *)

Lemma np_digitize_bins (x : Q) :
  np_digitize [3; 5; 7; 9]%Q x <= 4 /\
  ((x < 3)%Q -> np_digitize [3; 5; 7; 9]%Q x = 0) /\
  ((3 <= x)%Q -> (x < 5)%Q -> np_digitize [3; 5; 7; 9]%Q x = 1) /\
  ((5 <= x)%Q -> (x < 7)%Q -> np_digitize [3; 5; 7; 9]%Q x = 2) /\
  ((7 <= x)%Q -> (x < 9)%Q -> np_digitize [3; 5; 7; 9]%Q x = 3) /\
  ((9 <= x)%Q -> np_digitize [3; 5; 7; 9]%Q x = 4).
Proof.
  unfold np_digitize. rewrite !filter_cons, filter_nil.
  repeat case_decide;
    repeat match goal with
           | H : Qle_bool _ _ = true |- _ => apply Qle_bool_iff in H
           | H : Qle_bool _ _ <> true |- _ =>
               apply not_true_is_false, Qle_bool_false_iff in H
           end;
    cbn [length]; repeat split; intros; first [lia | lra].
Qed.

Section KappaClasses.
Context `{stats : StatsEnv}.

(** X10.  For Cohen's kappa the scores are put into five classes, cut at 3,
    5, 7 and 9: a score below 3 is in class 0, from 3 up to 5 in class 1, from
    5 up to 7 in class 2, from 7 up to 9 in class 3, and from 9 on in class 4.
    So when every judge score is below 3, as every overall score between 0
    and 1 is, kappa is computed against a judge that rates every conversation
    0. *)
Theorem kappa_classes :
  (forall x : Q,
     np_digitize [3; 5; 7; 9]%Q x <= 4 /\
     ((x < 3)%Q -> np_digitize [3; 5; 7; 9]%Q x = 0) /\
     ((3 <= x)%Q -> (x < 5)%Q -> np_digitize [3; 5; 7; 9]%Q x = 1) /\
     ((5 <= x)%Q -> (x < 7)%Q -> np_digitize [3; 5; 7; 9]%Q x = 2) /\
     ((7 <= x)%Q -> (x < 9)%Q -> np_digitize [3; 5; 7; 9]%Q x = 3) /\
     ((9 <= x)%Q -> np_digitize [3; 5; 7; 9]%Q x = 4)) /\
  (forall judge_scores human_scores : list Q,
     2 <= length judge_scores ->
     Forall (fun q => (q < 3)%Q) judge_scores ->
     cohen_kappa (_calculate_correlation_metrics judge_scores human_scores)
     = round4 (cohen_kappa_score (np_digitize [3; 5; 7; 9]%Q <$> human_scores)
                 (replicate (length judge_scores) 0))).
Proof.
  split; [exact np_digitize_bins|].
  intros judge_scores human_scores Hn Hlow. unfold _calculate_correlation_metrics.
  rewrite (proj2 (Nat.ltb_ge _ 2) Hn). cbn [cohen_kappa]. do 2 f_equal.
  clear Hn. induction Hlow as [|q l Hq _ IH]; [done|].
  cbn [fmap list_fmap length replicate]. f_equal; [|exact IH].
  by apply np_digitize_bins.
Qed.
End KappaClasses.

(** ** backend/app/core/config.py: the list of CORS origins *)







(** ** backend/app/services/meta_evaluation_service.py: agreement between
    annotators *)

Lemma pairwise_agreements_length (l : list Q) :
  length (pairwise_agreements l) = length l * (length l - 1) / 2.
Proof.
  assert (H : 2 * length (pairwise_agreements l) = length l * (length l - 1)).
  { induction l as [|x l IH]; [done|].
    cbn [pairwise_agreements length]. rewrite length_app, length_fmap.
    rewrite Nat.sub_succ, Nat.sub_0_r. destruct (length l) as [|n]; [lia|].
    rewrite Nat.sub_succ, Nat.sub_0_r in IH.
    rewrite Nat.mul_succ_l, Nat.mul_succ_r. lia. }
  rewrite <- H. by rewrite Nat.mul_comm, Nat.div_mul.
Qed.

Lemma pairwise_agreements_range (l : list Q) :
  Forall (fun x => (0 <= x <= 10)%Q) l ->
  Forall (fun a => (0 <= a <= 1)%Q) (pairwise_agreements l).
Proof.
  induction 1 as [|x l Hx Hl IH]; [constructor|].
  cbn [pairwise_agreements]. apply Forall_app. split; [|done].
  apply Forall_fmap. eapply Forall_impl; [exact Hl|].
  intros y Hy. change (0 <= 1 - Qabs.Qabs (x - y) / 10 <= 1)%Q.
  destruct Hx as [Hx0 Hx1], Hy as [Hy0 Hy1].
  assert (Qabs.Qabs (x - y) <= 10)%Q as Hd by (apply Qabs.Qabs_Qle_condition; lra).
  pose proof (Qabs.Qabs_nonneg (x - y)) as Hn.
  set (d := Qabs.Qabs (x - y)) in *. clearbody d.
  unfold Qdiv. change (/ 10)%Q with (1 # 10)%Q. lra.
Qed.

Lemma np_mean_range (l : list Q) :
  l <> [] -> Forall (fun a => (0 <= a <= 1)%Q) l -> (0 <= np_mean l <= 1)%Q.
Proof.
  intros Hne Hall. unfold np_mean.
  assert (Hs : (0 <= foldr Qplus 0 l <= inject_Z (Z.of_nat (length l)))%Q).
  { clear Hne. induction Hall as [|a l Ha _ IH]; [by split|].
    cbn [foldr length]. rewrite Nat2Z.inj_succ, <- Z.add_1_r, inject_Z_plus.
    change (inject_Z 1) with 1%Q. lra. }
  assert (Hn : (0 < inject_Z (Z.of_nat (length l)))%Q).
  { destruct l; [done|]. change 0%Q with (inject_Z 0). rewrite <- Zlt_Qlt. cbn. lia. }
  split.
  - apply Qle_shift_div_l; [done|]. lra.
  - apply Qle_shift_div_r; [done|]. lra.
Qed.

Lemma group_annotations_scores (P : Q -> Prop) (rows : list annotation_row) :
  Forall (fun row => P (row_overall_score row)) rows ->
  Forall (fun kv => Forall (fun score => P score.2) kv.2) (group_annotations rows).
Proof.
  unfold group_annotations. intros Hrows.
  assert (Hinit : Forall (fun kv : string * list (string * Q) =>
                            Forall (fun score => P score.2) kv.2) []) by constructor.
  revert Hinit. generalize (@nil (string * list (string * Q))).
  induction Hrows as [|row rows Hrow _ IH]; intros acc Hacc; [done|].
  cbn [fold_left]. apply IH.
  set (acc1 := if dict_mem (row_evaluation_id row) acc then acc else _).
  assert (Hacc1 : Forall (fun kv : string * list (string * Q) =>
                            Forall (fun score => P score.2) kv.2) acc1).
  { subst acc1. destruct (dict_mem _ acc); [done|].
    apply dict_set_Forall; [constructor|done]. }
  destruct (dict_get (row_evaluation_id row) acc1) as [scores|] eqn:Hget; [|done].
  apply dict_set_Forall; [|done]. cbn.
  apply dict_set_Forall; [done|].
  by apply (dict_get_Forall (fun scores => Forall (fun score => P score.2) scores)
              _ _ _ Hacc1 Hget).
Qed.

Lemma all_agreements_length (multi : list (string * list (string * Q))) :
  length (all_agreements multi) = annotator_pairs multi.
Proof.
  unfold all_agreements, annotator_pairs.
  induction multi as [|kv multi IH]; [done|].
  cbn. rewrite length_app, IH, pairwise_agreements_length, length_fmap. done.
Qed.

Lemma annotator_pairs_at_least (evaluation_scores : list (string * list (string * Q))) :
  length (multi_annotated evaluation_scores)
  <= annotator_pairs (multi_annotated evaluation_scores).
Proof.
  unfold multi_annotated, annotator_pairs.
  induction evaluation_scores as [|kv l IH]; [done|].
  rewrite filter_cons. case_decide as Hk; [|done]. cbn beta in Hk.
  assert (Hcons : forall (x : nat) (xs : list nat), sum_list (x :: xs) = x + sum_list xs)
    by done.
  rewrite fmap_cons, Hcons. cbn [length].
  assert (1 <= length kv.2 * (length kv.2 - 1) / 2); [|lia].
  apply Nat.div_le_lower_bound; [done|].
  destruct (length kv.2) as [|[|n]]; [lia|lia|].
  rewrite Nat.sub_succ, Nat.sub_0_r, Nat.mul_succ_l. lia.
Qed.

Section AnnotatorAgreement.
Context `{stats : StatsEnv}.

(** X12.  With fewer than five evaluations that two or more annotators
    scored, [get_inter_annotator_agreement] reports only how many there are;
    with five or more it reports the rounded mean of [1 - |a - b| / 10] over
    every two annotators' scores a, b of the same evaluation, together with
    the number of such evaluations and the number of such pairs, which is the
    sum of k (k - 1) / 2 over the evaluations with k annotators and so at
    least the number of evaluations; and when every score lies between 0 and
    10, the mean, before rounding, lies between 0 and 1. *)
Theorem annotator_agreement_report (rows : list annotation_row) :
  let multi := multi_annotated (group_annotations rows) in
  (length multi < 5 ->
   get_inter_annotator_agreement rows
   = PDict [("krippendorff_alpha", PNone);
            ("sample_size", PInt (Z.of_nat (length multi)));
            ("message",
             PStr "Insufficient multi-annotated samples for agreement calculation")]) /\
  (5 <= length multi ->
   get_inter_annotator_agreement rows
   = PDict [("average_pairwise_agreement",
             PFloat (round4 (np_mean (all_agreements multi))));
            ("sample_size", PInt (Z.of_nat (length multi)));
            ("total_annotation_pairs", PInt (Z.of_nat (annotator_pairs multi)))] /\
   length multi <= annotator_pairs multi /\
   (Forall (fun row => (0 <= row_overall_score row <= 10)%Q) rows ->
    (0 <= np_mean (all_agreements multi) <= 1)%Q)).
Proof.
  cbn zeta. split.
  - intros Hlt. unfold get_inter_annotator_agreement.
    by rewrite (proj2 (Nat.ltb_lt _ _) Hlt).
  - intros Hge. pose proof (annotator_pairs_at_least (group_annotations rows)) as Hpairs.
    pose proof (all_agreements_length (multi_annotated (group_annotations rows))) as Hlen.
    assert (Hne : all_agreements (multi_annotated (group_annotations rows)) <> []).
    { intros Hnil. rewrite Hnil in Hlen. cbn in Hlen. lia. }
    split; [|split; [done|]].
    + unfold get_inter_annotator_agreement.
      rewrite (proj2 (Nat.ltb_ge _ _) Hge), Hlen.
      by destruct (all_agreements (multi_annotated (group_annotations rows))).
    + intros Hrows. apply np_mean_range; [done|].
      apply (group_annotations_scores (fun q => (0 <= q <= 10)%Q)) in Hrows.
      unfold all_agreements, multi_annotated.
      apply Forall_bind, Forall_forall. intros kv Hin.
      apply list_elem_of_filter in Hin as [_ Hin].
      apply (proj1 (Forall_forall _ _) Hrows) in Hin.
      apply pairwise_agreements_range. by apply Forall_fmap.
Qed.
End AnnotatorAgreement.

(** ** backend/app/services/meta_evaluation_service.py: the calibration
    set *)

Lemma mapM_py_index {A} (evals : list A) (indices : list nat) :
  Forall (fun i => i < length evals) indices ->
  exists picked,
    mapM (py_index evals) indices = Ok picked /\
    length picked = length indices /\
    Forall (fun e => e ∈ evals) picked.
Proof.
  induction 1 as [|i indices Hi _ (picked & Hp & Hlen & Hin)].
  - by exists [].
  - destruct (lookup_lt_is_Some_2 evals i Hi) as [e He].
    assert (Hpick : py_index evals i = Ok e) by (unfold py_index; by rewrite He).
    exists (e :: picked). cbn [mapM]. rewrite Hpick. cbn [mbind exc_bind].
    rewrite Hp. cbn. split; [done|]. split; [by rewrite Hlen|].
    constructor; [|done]. by eapply list_elem_of_lookup_2.
Qed.

Section CalibrationSetProperties.
Variable random_choice : score_range -> nat -> nat -> list nat.

Lemma sample_range_spec (evaluations : list stored_evaluation) (size : Z)
    (r : score_range) :
  draws_without_replacement random_choice ->
  exists picked,
    sample_range random_choice evaluations size r = Ok picked /\
    length picked = range_quota evaluations size r /\
    Forall (fun e => e ∈ evaluations /\ in_range r e = true) picked.
Proof.
  intros Hdraw. unfold sample_range, range_quota.
  set (evals := filter (fun e => in_range r e = true) evaluations).
  destruct (0 <? Z.min (size / 3) (Z.of_nat (length evals)))%Z eqn:Hpos.
  - apply Z.ltb_lt in Hpos.
    destruct (Hdraw r (length evals)
                (Z.to_nat (Z.min (size / 3) (Z.of_nat (length evals)))))
      as (Hlen & Hlt & _); [lia|].
    destruct (mapM_py_index evals _ Hlt) as (picked & Hp & Hl & Hin).
    exists picked. split; [done|]. split; [by rewrite Hl|].
    eapply Forall_impl; [exact Hin|]. intros e He.
    subst evals. apply list_elem_of_filter in He as [? ?]. by split.
  - apply Z.ltb_ge in Hpos. exists []. split; [done|]. split; [cbn; lia|constructor].
Qed.

(** X13.  With draws that are without replacement, [get_calibration_set]
    returns the entries of evaluations it was given, for each of the three
    score ranges (below 4, from 4 to below 7, from 7) as many as a third of
    the requested size, rounded down, or all of the range if that is fewer,
    each from its range; so it returns at most three times the rounded third,
    which is at most the requested size (48 for a request of 50), and nothing
    for a request below 3. *)
Theorem calibration_set_quota (evaluations : list stored_evaluation) (size : Z) :
  draws_without_replacement random_choice ->
  exists from_low from_medium from_high,
    get_calibration_set random_choice evaluations size
    = Ok (calibration_item <$> (from_low ++ from_medium ++ from_high)) /\
    length from_low = range_quota evaluations size low /\
    length from_medium = range_quota evaluations size medium /\
    length from_high = range_quota evaluations size high /\
    Forall (fun e => e ∈ evaluations /\ in_range low e = true) from_low /\
    Forall (fun e => e ∈ evaluations /\ in_range medium e = true) from_medium /\
    Forall (fun e => e ∈ evaluations /\ in_range high e = true) from_high /\
    length (from_low ++ from_medium ++ from_high) <= 3 * Z.to_nat (size / 3) /\
    3 * Z.to_nat (size / 3) <= Z.to_nat size /\
    ((size < 3)%Z -> from_low ++ from_medium ++ from_high = []).
Proof.
  intros Hdraw.
  destruct (sample_range_spec evaluations size low Hdraw) as (l1 & H1 & Hl1 & Hin1).
  destruct (sample_range_spec evaluations size medium Hdraw) as (l2 & H2 & Hl2 & Hin2).
  destruct (sample_range_spec evaluations size high Hdraw) as (l3 & H3 & Hl3 & Hin3).
  assert (Hq : forall r, range_quota evaluations size r <= Z.to_nat (size / 3)).
  { intros r. unfold range_quota. lia. }
  assert (Hthird : 3 * Z.to_nat (size / 3) <= Z.to_nat size).
  { destruct (Z.le_gt_cases 0 size) as [Hs|Hs].
    - pose proof (Z.mul_div_le size 3 ltac:(lia)).
      pose proof (Z.div_pos size 3 Hs ltac:(lia)). lia.
    - assert (size / 3 < 0)%Z by (apply Z.div_lt_upper_bound; lia). lia. }
  assert (Hlen : length (l1 ++ l2 ++ l3) <= 3 * Z.to_nat (size / 3)).
  { rewrite !length_app, Hl1, Hl2, Hl3.
    pose proof (Hq low). pose proof (Hq medium). pose proof (Hq high). lia. }
  exists l1, l2, l3. split.
  - unfold get_calibration_set. destruct evaluations as [|e evaluations].
    + cbn in Hl1, Hl2, Hl3.
      assert (forall r, range_quota [] size r = 0) as Hz.
      { intros r. unfold range_quota. cbn. lia. }
      rewrite Hz in Hl1, Hl2, Hl3.
      apply nil_length_inv in Hl1, Hl2, Hl3. by subst.
    + rewrite H1, H2, H3. cbn [mbind exc_bind]. do 2 f_equal.
      unfold py_slice_to. destruct (0 <=? size)%Z eqn:Hs.
      * apply take_ge. lia.
      * apply Z.leb_gt in Hs.
        assert (size / 3 < 0)%Z by (apply Z.div_lt_upper_bound; lia).
        assert (l1 ++ l2 ++ l3 = []) as -> by (apply nil_length_inv; lia). done.
  - do 6 (split; [done|]). split; [done|]. split; [done|].
    intros Hs. apply nil_length_inv.
    assert (size / 3 <= 0)%Z; [|lia].
    destruct (Z.le_gt_cases 0 size) as [Hs0|Hs0].
    + rewrite Z.div_small by lia. done.
    + assert (size / 3 < 0)%Z by (apply Z.div_lt_upper_bound; lia). lia.
Qed.
End CalibrationSetProperties.

Lemma first_indices_draw : draws_without_replacement first_indices.
Proof.
  intros r n k Hk. unfold first_indices. split; [apply length_seq|]. split.
  - apply Forall_forall. intros i Hi. apply list_elem_of_In, in_seq in Hi. lia.
  - apply NoDup_ListNoDup, seq_NoDup.
Qed.

(** X13, witness: a request of 5 over four evaluations gives one entry per
    range, three in all. *)
Lemma calibration_set_quota_witness :
  exists from_low from_medium from_high,
    get_calibration_set first_indices sample_unannotated 5
    = Ok (calibration_item <$> (from_low ++ from_medium ++ from_high)) /\
    length from_low = 1 /\ length from_medium = 1 /\ length from_high = 1 /\
    length (from_low ++ from_medium ++ from_high) <= 3.
Proof.
  destruct (calibration_set_quota first_indices sample_unannotated 5 first_indices_draw)
    as (l1 & l2 & l3 & H & H1 & H2 & H3 & _ & _ & _ & Hlen & _).
  exists l1, l2, l3. split; [exact H|]. split; [exact H1|]. split; [exact H2|].
  split; [exact H3|]. exact Hlen.
Defined.

(** ** backend/app/api/routes.py: the health of the system *)

Lemma str_contains_prefix (sub s : string) :
  String.prefix sub s = true -> str_contains sub s = true.
Proof. intros H. destruct s; cbn [str_contains]; by rewrite H. Qed.

Section HealthProperties.
Context `{probes : Health.HealthEnv}.

(** X14.  [health_check] reports "unhealthy" exactly when the probe of
    the database or that of Redis raised, whatever the judge does and
    whatever the error messages say; otherwise "degraded" exactly when the
    judge's probe raised or answered with a status other than 200; and
    "healthy" exactly when all three probes went through, the judge's with
    200. *)
Theorem health_check_status :
  (Health.status Health.health_check = "unhealthy" <->
   (exists e, Health.database_probe = Raise e) \/
   (exists e, Health.redis_probe = Raise e)) /\
  (Health.status Health.health_check = "degraded" <->
   Health.database_probe = Ok () /\ Health.redis_probe = Ok () /\
   Health.judge_probe <> Ok 200%Z) /\
  (Health.status Health.health_check = "healthy" <->
   Health.database_probe = Ok () /\ Health.redis_probe = Ok () /\
   Health.judge_probe = Ok 200%Z).
Proof.
  assert (Hbad : forall m, str_contains "unhealthy" ("unhealthy: " +:+ m) = true).
  { intros m. by apply str_contains_prefix. }
  assert (Hdeg : forall m, str_contains "degraded" ("degraded: status " +:+ m) = true).
  { intros m. by apply str_contains_prefix. }
  cbn [Health.status Health.health_check].
  unfold Health.overall_status, Health.db_status, Health.redis_status,
    Health.judge_status.
  destruct Health.database_probe as [[]|e1].
  2:{ rewrite Hbad. cbn [orb].
      repeat split; try done; try (intros (? & ? & ?); done).
      intros _. left. by eexists. }
  destruct Health.redis_probe as [[]|e2].
  2:{ rewrite Hbad, orb_true_r.
      repeat split; try done; try (intros (? & ? & ?); done).
      intros _. right. by eexists. }
  change (str_contains "unhealthy" "healthy") with false. cbn [orb].
  destruct Health.judge_probe as [code|e3].
  - destruct (code =? 200)%Z eqn:Hcode.
    + apply Z.eqb_eq in Hcode as ->.
      change (str_contains "unhealthy" "healthy") with false.
      change (str_contains "degraded" "healthy") with false. cbn [orb].
      repeat split; try done.
      * intros [[e He]|[e He]]; done.
      * intros (_ & _ & H). done.
    + apply Z.eqb_neq in Hcode. rewrite Hdeg, orb_true_r.
      repeat split; try done.
      * intros [[e He]|[e He]]; done.
      * intros [= ->]. done.
      * intros (_ & _ & [= ->]). done.
  - rewrite Hbad. cbn [orb]. repeat split; try done.
    + intros [[e He]|[e He]]; done.
    + intros (_ & _ & H). done.
Qed.
End HealthProperties.

(** ** backend/app/services/evaluation_service.py: the rows of a batch *)

Section ServiceBatch.
Context `{env : EngineEnv}.
Variable _judge_config : JudgeConfig.
Variable dir : configs_dir.
Variable _cache : gmap string Rubric.


End ServiceBatch.

(** ** judge/languagetool.py: the counts in the note *)



Section LanguageToolNote.
Context `{lt : LanguageToolEnv}.
Variable base_url_lt : string.

End LanguageToolNote.


(** ** backend/app/services/evaluation_service.py: a judge that fails *)

Section FailedJudgeCall.
Context `{env : EngineEnv} `{lt : LanguageToolEnv}.
Variable _judge_config : JudgeConfig.
Variable dir : configs_dir.
Variable _cache : gmap string Rubric.
Variable LANGUAGETOOL_URL : string.
Variable LANGUAGETOOL_ENABLED : bool.

(** X17.  When the call to the model, or the parsing of its answer, raises,
    [evaluate_conversation] still returns, and what it stores or returns is
    the error evaluation: overall score 0, no dimension scores, the critical
    error flag set and the two others not, the exception's text in the
    summary and in the context analysis, no raw text; the model name, the
    rubric version and the time are filled in.  This holds whether or not
    LanguageTool is asked and whatever it answers. *)
Theorem failed_judge_call_is_stored_as_error (conversation : Database.Conversation)
    (rubric_name : string) (include_few_shot enhance_with_languagetool : bool)
    (job_id : option string) (e : exn) :
  let rubric := (load dir rubric_name _cache).1 in
  let judge_conv := to_judge_conversation conversation in
  (response ← _call_llm _judge_config (_build_system_prompt rubric)
                (_build_user_prompt rubric judge_conv include_few_shot);
   _parse_response rubric response (Database.id conversation)) = Raise e ->
  evaluate_conversation _judge_config dir _cache LANGUAGETOOL_URL LANGUAGETOOL_ENABLED
    true conversation rubric_name include_few_shot job_id enhance_with_languagetool
  = inl {| Database.conversation_id := Database.id conversation;
           Database.job_id := job_id;
           Database.overall_score := 0;
           Database.dimension_scores := PDict [];
           Database.chain_of_thought :=
             PDict [("context_analysis", PStr ("Error: " +:+ str_exn e));
                    ("response_analysis", PStr "");
                    ("legal_check", PStr "");
                    ("language_assessment", PStr "")];
           Database.summary := PStr ("Evaluation failed: " +:+ str_exn e);
           Database.improvement_suggestions := PList [];
           Database.critical_error := PBool true;
           Database.compliance_issue := PBool false;
           Database.escalation_needed := PBool false;
           Database.model_name := cfg_model_name _judge_config;
           Database.rubric_version := version rubric;
           Database.processing_time_ms := elapsed_ms judge_conv;
           Database.raw_response := None |} /\
  evaluate_conversation _judge_config dir _cache LANGUAGETOOL_URL LANGUAGETOOL_ENABLED
    false conversation rubric_name include_few_shot job_id enhance_with_languagetool
  = inr (PDict [("conversation_id", PStr (Database.id conversation));
                ("overall_score", PFloat 0);
                ("dimension_scores", PDict []);
                ("chain_of_thought",
                 PDict [("context_analysis", PStr ("Error: " +:+ str_exn e));
                        ("response_analysis", PStr "");
                        ("legal_check", PStr "");
                        ("language_assessment", PStr "")]);
                ("summary", PStr ("Evaluation failed: " +:+ str_exn e));
                ("improvement_suggestions", PList []);
                ("flags", PDict [("critical_error", PBool true);
                                 ("compliance_issue", PBool false);
                                 ("escalation_needed", PBool false)]);
                ("model_name", PStr (cfg_model_name _judge_config));
                ("rubric_version", PStr (version rubric));
                ("processing_time_ms", PInt (elapsed_ms judge_conv))]).
Proof.
  cbn zeta. intros Hfail.
  assert (Hres : evaluated_result _judge_config dir _cache LANGUAGETOOL_URL
                   LANGUAGETOOL_ENABLED conversation rubric_name include_few_shot
                   enhance_with_languagetool
                 = stamp _judge_config (load dir rubric_name _cache).1
                     (to_judge_conversation conversation)
                     (_create_error_result (Database.id conversation) (str_exn e))).
  { unfold evaluated_result, evaluate. cbn zeta.
    change (conv_id (to_judge_conversation conversation)) with (Database.id conversation).
    rewrite Hfail. unfold languagetool_step.
    destruct (enhance_with_languagetool && LANGUAGETOOL_ENABLED); [|done].
    destruct (_extract_chatbot_text _); [|done].
    by apply enhance_evaluation_without_dimension. }
  unfold evaluate_conversation. rewrite Hres. by split.
Qed.
End FailedJudgeCall.

(** X17, witness: an endpoint that refuses the connection, and a
    LanguageTool that would find an issue in the chatbot's text. *)
Lemma failed_judge_call_is_stored_as_error_witness :
  exists row,
    evaluate_conversation (env := sample_env (Raise (HTTPError "Connection refused")))
      (lt := one_issue_languagetool) sample_config ∅ ∅ "http://localhost:8081/v2" true
      true sample_stored_conversation "default_rubric" true (Some "job-1") true
    = inl row /\
    Database.overall_score row = 0%Q /\
    Database.critical_error row = PBool true /\
    Database.summary row = PStr "Evaluation failed: Connection refused".
Proof.
  eexists. split.
  - apply (failed_judge_call_is_stored_as_error
             (env := sample_env (Raise (HTTPError "Connection refused")))
             (lt := one_issue_languagetool) sample_config ∅ ∅ "http://localhost:8081/v2"
             true sample_stored_conversation "default_rubric" true true (Some "job-1")
             (HTTPError "Connection refused")).
    reflexivity.
  - by repeat split.
Defined.

(** ** backend/app/api/routes.py: the pages of a listing *)




